(** * sos collector: the multi-node collection driver

    A shallow embedding of [sos/collector/__init__.py] (class
    [SoSCollector]) and the properties of its option parsing, profile
    detection, node reconciliation, command construction and archive
    naming.

    Conventions.
    - A Python [str] is a [string]; characters are 8-bit [ascii], so the
      development covers ASCII text ([str.lower] and [str.split] agree with
      Python on it).
    - A Python [list] is a [list]; a loop that removes from the list it is
      iterating over is modelled with the iterator's index, as CPython runs
      it.
    - [list(set(...))] goes through stdpp's [gset]: the order of the result
      is as unspecified here as it is in Python.
    - A method that may call [self._exit] (which ends in [sys.exit]) or let
      an exception escape returns an [outcome]. *)

From Stdlib Require Import Ascii String ZArith Lia Bool.
From stdpp Require Import base decidable option list gmap strings.

Local Open Scope string_scope.
Local Open Scope list_scope.

(** ** Outcomes: normal return, [sys.exit], uncaught exception *)

Inductive pyexn : Type :=
  | IndexError
  | TypeError
  | AttributeError
  | KeyError
  | NameError (name : string)
  | OtherError (what : string).

Inductive outcome (A : Type) : Type :=
  | Ret (a : A)
  | Exit (code : Z) (msg : string)
  | Raise (e : pyexn).

Arguments Ret {A} a.
Arguments Exit {A} code msg.
Arguments Raise {A} e.

#[global] Instance outcome_ret : MRet outcome := fun A a => Ret a.

#[global] Instance outcome_bind : MBind outcome := fun A B k m =>
  match m with
  | Ret a => k a
  | Exit c s => Exit c s
  | Raise e => Raise e
  end.

(** [l[i]] on a Python list. *)
Definition index {A} (l : list A) (i : nat) : outcome A :=
  match l !! i with
  | Some a => Ret a
  | None => Raise IndexError
  end.

Fixpoint mapM {A B} (f : A -> outcome B) (l : list A) : outcome (list B) :=
  match l with
  | [] => Ret []
  | a :: l' => b ← f a; bs ← mapM f l'; Ret (b :: bs)
  end.

(** ** Python string primitives *)

Module Py.

(** [c in s] for a one-character [c]. *)
Fixpoint contains (c : ascii) (s : string) : bool :=
  match s with
  | EmptyString => false
  | String d s' => Ascii.eqb c d || contains c s'
  end.

(** [any(f in s for f in filt)] where every [f] is one character. *)
Definition contains_any (filt : list ascii) (s : string) : bool :=
  existsb (fun f => contains f s) filt.

(** [bool(s)]: a string is truthy when it is not empty. *)
Definition truthy (s : string) : bool :=
  match s with EmptyString => false | _ => true end.

(** [s.split(sep)] for a one-character separator: never an empty list. *)
Fixpoint split (sep : ascii) (s : string) : list string :=
  match s with
  | EmptyString => [EmptyString]
  | String c s' =>
      if Ascii.eqb c sep then EmptyString :: split sep s'
      else match split sep s' with
           | [] => [String c EmptyString]
           | h :: t => String c h :: t
           end
  end.

(** [str.isspace] on ASCII: TAB LF VT FF CR, FS GS RS US, and space. *)
Definition isspace (c : ascii) : bool :=
  let n := nat_of_ascii c in
  ((9 <=? n)%nat && (n <=? 13)%nat) || ((28 <=? n)%nat && (n <=? 32)%nat).

(** [s.split()]: the maximal runs of non-whitespace characters. [cur] is
    the run being read, in reverse. *)
Fixpoint split_ws_from (cur : list ascii) (s : string) : list string :=
  match s with
  | EmptyString =>
      match cur with [] => [] | _ => [string_of_list_ascii (rev cur)] end
  | String c s' =>
      if isspace c then
        match cur with
        | [] => split_ws_from [] s'
        | _ => string_of_list_ascii (rev cur) :: split_ws_from [] s'
        end
      else split_ws_from (c :: cur) s'
  end.

Definition split_ws (s : string) : list string := split_ws_from [] s.

(** [s.lower()] on ASCII. *)
Definition lower_char (c : ascii) : ascii :=
  let n := nat_of_ascii c in
  if (65 <=? n)%nat && (n <=? 90)%nat then ascii_of_nat (n + 32) else c.

Fixpoint lower (s : string) : string :=
  match s with
  | EmptyString => EmptyString
  | String c s' => String (lower_char c) (lower s')
  end.

(** [s.lstrip(',')]-style stripping of one leading character class. *)
Fixpoint lstrip (c : ascii) (s : string) : string :=
  match s with
  | String d s' => if Ascii.eqb d c then lstrip c s' else s
  | EmptyString => EmptyString
  end.

(** [s in l] for a list of strings. *)
Definition mem (s : string) (l : list string) : bool :=
  existsb (String.eqb s) l.

(** [l.remove(x)]: drops the first element equal to [x]. (Python raises
    [ValueError] when there is none; every call in the collector is made
    on an element known to be present, where the two agree.) *)
Fixpoint remove (x : string) (l : list string) : list string :=
  match l with
  | [] => []
  | y :: l' => if String.eqb x y then l' else y :: remove x l'
  end.

End Py.

(** ** Cluster options *)

(** The classes that occur as [opt_type]. *)
Inductive pytype : Type := TStr | TBool | TInt.

Definition pytype_eqb (a b : pytype) : bool :=
  match a, b with
  | TStr, TStr | TBool, TBool | TInt, TInt => true
  | _, _ => false
  end.

(** [str(cls)] *)
Definition pytype_repr (t : pytype) : string :=
  match t with
  | TStr => "<class 'str'>"
  | TBool => "<class 'bool'>"
  | TInt => "<class 'int'>"
  end.

Inductive pyvalue : Type :=
  | VStr (s : string)
  | VBool (b : bool)
  | VInt (z : Z).

(** [value.__class__] *)
Definition class_of (v : pyvalue) : pytype :=
  match v with VStr _ => TStr | VBool _ => TBool | VInt _ => TInt end.

(** [ClusterOption(name, value, opt_type, cluster)]. The class is defined
    outside this module, in [sos.options]; these are the attributes the
    collector reads, in the order of the arguments of the call in
    [parse_cluster_options]. *)
Record ClusterOption : Type := mkClusterOption {
  name : string;
  value : pyvalue;
  opt_type : pytype;
  cluster : string
}.

(** The names bound at the level of the module [sos.collector]: its
    imports, the constant [COLLECTOR_LIB_DIR] and the class [SoSCollector].
    No other statement of the module binds a global name. *)
Definition module_globals : list string :=
  ["fnmatch"; "inspect"; "json"; "logging"; "os"; "random"; "re"; "string";
   "tarfile"; "tempfile"; "socket"; "shutil"; "subprocess"; "sys";
   "datetime"; "ThreadPoolExecutor"; "getpass"; "quote"; "fill"; "SosNode";
   "ControlPersistUnsupportedException"; "SoSComponent"; "__version__";
   "COLLECTOR_LIB_DIR"; "SoSCollector"].

(** The lookup of a name that is neither a local variable nor a builtin:
    [NameError] when the module does not bind it. *)
Definition global_name (n : string) : outcome unit :=
  if Py.mem n module_globals then Ret tt else Raise (NameError n).

(** The first statements of the loop body of [parse_cluster_options], for
    one [-c] argument: the local variables [cluster], [name] and [value]
    as the call of [ClusterOption] finds them. The two [split('.')] lookups
    are outside the [try]; the [IndexError] of the value lookup is the only
    one caught. *)
Definition cluster_option_locals (option : string)
  : outcome (string * string * string) :=
  cluster ← index (Py.split "." option) 0%nat;
  rest ← index (Py.split "." option) 1%nat;
  name ← index (Py.split "=" rest) 0%nat;
  let value :=
    match (rhs ← index (Py.split "=" option) 1%nat;
           index (Py.split_ws rhs) 0%nat) with
    | Ret v => v
    | _ => "True"
    end in
  Ret (cluster, name, value).

(** The body of the loop of [parse_cluster_options], for one [-c]
    argument: the local variables, then
    [ClusterOption(name, value, value.__class__, cluster)]. The name
    [ClusterOption] is looked up among the globals of the module when the
    call is made. *)
Definition parse_cluster_option (option : string) : outcome ClusterOption :=
  '(cluster, name, value) ← cluster_option_locals option;
  _ ← global_name "ClusterOption";
  Ret (mkClusterOption name (VStr value) (class_of (VStr value)) cluster).

(** [parse_cluster_options]: the new value of [self.opts.cluster_options]
    ([opts.cluster_options] is a list: argparse appends to it). The loop
    ends at the first argument that raises. *)
Definition parse_cluster_options (cluster_options : list string)
  : outcome (list ClusterOption) :=
  mapM parse_cluster_option cluster_options.

(** [_exit(msg, error=1)] *)
Definition _exit {A} (msg : string) (error : Z) : outcome A := Exit error msg.

(** [_validate_option(default, cli)] *)
Definition _validate_option (default cli : ClusterOption) : outcome pyvalue :=
  if negb (pytype_eqb (opt_type default) TBool) then
    if negb (pytype_eqb (opt_type default) (opt_type cli)) then
      _exit ("Invalid option type for " +:+ name cli +:+ ". Expected "
             +:+ pytype_repr (opt_type default) +:+ " got "
             +:+ pytype_repr (opt_type cli)) 1
    else Ret (value cli)
  else
    match value cli with
    | VStr s =>
        let val := Py.lower s in
        if negb (Py.mem val ["true"; "on"; "false"; "off"]) then
          _exit ("Invalid value for " +:+ name cli
                 +:+ ". Accepted values are: 'true', 'false', 'on', 'off'") 1
        else if Py.mem val ["true"; "on"] then Ret (VBool true)
        else Ret (VBool false)
    | _ => Raise AttributeError
    end.


(** ** Nodes and cluster profiles *)

(** The attributes of a [SosNode] the collector reads. *)
Record SosNode : Type := mkSosNode {
  address : string;
  hostname : string;
  connected : bool;
  file_list : list string
}.

(** An instance of a cluster profile class, as held in [self.clusters].
    - [class_name] is [cluster.__class__.__name__], which is also its key
      in [self.clusters];
    - [ancestors] are the names of the proper base classes of its class
      (the rest of [__mro__]);
    - [check_enabled] is the profile's applicability check, run against the
      node assigned as its [master];
    - [get_nodes_result] is what [_get_nodes()] gives on that node. *)
Record Cluster : Type := mkCluster {
  class_name : string;
  ancestors : list string;
  cluster_name : string;
  options : list ClusterOption;
  check_enabled : SosNode -> bool;
  get_nodes_result : SosNode -> outcome (list string);
  master : option SosNode
}.

Definition set_master (m : SosNode) (c : Cluster) : Cluster :=
  mkCluster (class_name c) (ancestors c) (cluster_name c) (options c)
            (check_enabled c) (get_nodes_result c) (Some m).

(** [issubclass(d.__class__, b.__class__)]: reflexive, and true when the
    class of [b] is among the bases of the class of [d]. *)
Definition issubclass (d b : Cluster) : bool :=
  Py.mem (class_name b) (class_name d :: ancestors d).

(** [self.clusters]: a dict from class name to instance; iteration follows
    insertion order. *)
Definition registry : Type := list (string * Cluster).

Definition values (clusters : registry) : list Cluster := map snd clusters.

(** *** [verify_cluster_options] *)

(** [for option in self.clusters[clust].options: ... break] *)
Fixpoint scan_options (opt : ClusterOption) (opts : list ClusterOption)
    (match_ : bool) : bool :=
  match opts with
  | [] => match_
  | option :: rest =>
      if String.eqb (name opt) (name option) then true
      else scan_options opt rest match_
  end.

(** [for clust in self.clusters: ...] *)
Definition scan_clusters (opt : ClusterOption) (clusters : registry)
    (match_ : bool) : bool :=
  fold_left (fun m clust => scan_options opt (options clust) m)
            (values clusters) match_.

(** [for opt in self.opts.cluster_options: match = False; ...]: the loop
    leaves [match] and [opt] as the last iteration set them. *)
Definition verify_loop (clusters : registry)
    (cluster_options : list ClusterOption)
  : option (bool * ClusterOption) :=
  fold_left (fun _ opt => Some (scan_clusters opt clusters false, opt))
            cluster_options None.

(** [verify_cluster_options]: the test of [match] comes after the loop
    over the user's options, not inside it. *)
Definition verify_cluster_options (clusters : registry)
    (cluster_options : list ClusterOption) : outcome unit :=
  match verify_loop clusters cluster_options with
  | None => Ret tt
  | Some (match_, opt) =>
      if negb match_ then
        _exit ("Unknown cluster option provided: " +:+ cluster opt +:+ "."
               +:+ name opt) 1
      else Ret tt
  end.

(** *** [determine_cluster] *)

(** [checks.remove(cluster)]: instances are compared by identity, which
    the registry key stands for. *)
Fixpoint checks_remove (c : Cluster) (checks : list Cluster) : list Cluster :=
  match checks with
  | [] => []
  | x :: rest =>
      if String.eqb (class_name c) (class_name x) then rest
      else x :: checks_remove c rest
  end.

(** The inner loop over [checks]: the value of [cluster] when it ends. *)
Fixpoint layered (m : SosNode) (cluster : Cluster) (checks : list Cluster)
  : Cluster :=
  match checks with
  | [] => cluster
  | remaining :: rest =>
      if issubclass remaining cluster then
        let remaining := set_master m remaining in
        if check_enabled remaining m then remaining
        else layered m cluster rest
      else layered m cluster rest
  end.

(** The outer loop: [todo] is what is left of [self.clusters.values()]. *)
Fixpoint determine_loop (m : SosNode) (todo checks : list Cluster)
  : option Cluster :=
  match todo with
  | [] => None
  | cluster :: rest =>
      let checks := checks_remove cluster checks in
      let cluster := set_master m cluster in
      if check_enabled cluster m then Some (layered m cluster checks)
      else determine_loop m rest checks
  end.

(** [determine_cluster]: the new [self.cluster] ([None] when no profile
    matches); [self.cluster_type] is then its [name()]. *)
Definition determine_cluster (clusters : registry) (m : SosNode)
  : option Cluster :=
  determine_loop m (values clusters) (values clusters).

(** ** [parse_node_strings] *)

Module Re.

(** The characters [re.escape] puts a backslash in front of
    ([re._special_chars_map]). *)
Definition special (c : ascii) : bool :=
  Py.contains c "()[]{}?*+-|^$\.&~# "
  || (let n := nat_of_ascii c in (9 <=? n)%nat && (n <=? 13)%nat).

(** [re.escape(s)] *)
Fixpoint escape (s : string) : string :=
  match s with
  | EmptyString => EmptyString
  | String c s' =>
      if special c then String "\" (String c (escape s'))
      else String c (escape s')
  end.

(** A pattern made of plain characters and backslash-escaped special
    characters only. [re.compile] accepts every such pattern; this is the
    instance of the compile test the examples are run with. *)
Fixpoint literal_pattern (p : string) : bool :=
  match p with
  | EmptyString => true
  | String c p' =>
      if Ascii.eqb c "\" then
        match p' with
        | String d p'' => special d && literal_pattern p''
        | EmptyString => false
        end
      else negb (special c) && literal_pattern p'
  end.

End Re.

Section NodeStrings.

(** [re_compile p] is true when [re.compile(p)] returns and false when it
    raises [re.error]. *)
Variable re_compile : string -> bool.

(** [[i for i, m in enumerate(node) if m == ',']], counting from [i]. *)
Fixpoint comma_indices (i : nat) (node : string) : list nat :=
  match node with
  | EmptyString => []
  | String m node' =>
      if Ascii.eqb m "," then i :: comma_indices (S i) node'
      else comma_indices (S i) node'
  end.

(** [node[i:j]] for [i <= j]. *)
Definition slice (node : string) (i j : nat) : string :=
  String.substring i (j - i) node.

(** ['[' in reg and ']' not in reg] *)
Definition splits_regex (reg : string) : bool :=
  Py.contains "[" reg && negb (Py.contains "]" reg).

(** The variables of the scan of one node string; [nodes] is shared by
    all of them. *)
Record scan : Type := mkScan {
  start : nat;
  pos : nat;
  nodes : list string
}.

(** The body of [for idx in idxs]. *)
Definition scan_step (node : string) (st : scan) (idx : nat) : scan :=
  let reg := slice node (start st) idx in
  if negb (re_compile (Re.escape reg)) then
    mkScan (start st) idx (nodes st)            (* except re.error *)
  else if splits_regex reg then
    mkScan (start st) idx (nodes st)
  else
    mkScan idx idx (nodes st ++ [Py.lstrip "," reg]).

(** The body of [for node in self.opts.nodes]: [out] is [nodes] so far. *)
Definition scan_node (out : list string) (node : string) : list string :=
  let idxs := comma_indices 0 node ++ [String.length node] in
  let st := fold_left (scan_step node) idxs (mkScan 0 0 out) in
  if negb (Nat.eqb (pos st) (String.length node)) then
    nodes st ++ [slice node (S (pos st)) (String.length node)]
  else nodes st.

(** [parse_node_strings]: the new value of [self.opts.nodes]. *)
Definition parse_node_strings (opts_nodes : list string) : list string :=
  match opts_nodes with
  | [] => opts_nodes
  | _ => fold_left scan_node opts_nodes []
  end.

End NodeStrings.

(** ** The collector's options and attributes *)

(** [self.opts], the fields the methods below read. A string option that
    argparse may leave as [None] (or that defaults to [False]) is an
    [option string]. *)
Record Options : Type := mkOptions {
  opts_nodes : list string;
  opts_master : string;
  opts_no_local : bool;
  opts_label : option string;
  opts_case_id : option string;
  opts_sos_opt_line : option string;
  opts_alloptions : bool;
  opts_all_logs : bool;
  opts_verify : bool;
  opts_log_size : Z;
  opts_sysroot : option string;
  opts_chroot : option string;
  opts_compression : option string
}.

(** [if x:] for such an option. *)
Definition is_set (x : option string) : bool :=
  match x with
  | Some s => Py.truthy s
  | None => false
  end.

(** The attributes of [self] used for node reconciliation. [self_master]
    is [None] while [self.master] is still [False]; [self_cluster_type] is
    [None] while the attribute has not been assigned. *)
Record Self : Type := mkSelf {
  self_hostname : string;
  self_ip_addrs : list string;
  self_master : option SosNode;
  self_cluster : option Cluster;
  self_cluster_type : option string;
  self_opts : Options
}.

(** ** Node reconciliation: [get_nodes] and [reduce_node_list] *)

(** [for n in l: if p(n): l.remove(n)]. The list iterator keeps an index
    [i] into the list being changed; the loop ends when the index runs off
    the end. [fuel] bounds the number of iterations. *)
Fixpoint iter_remove (p : string -> bool) (fuel i : nat) (l : list string)
  : list string :=
  match fuel with
  | O => l
  | S fuel' =>
      match l !! i with
      | None => l
      | Some n => iter_remove p fuel' (S i) (if p n then Py.remove n l else l)
      end
  end.

(** The index advances at every iteration and stays below the length,
    which never grows: [length l] iterations always suffice. *)
Definition for_remove (p : string -> bool) (l : list string) : list string :=
  iter_remove p (length l) 0 l.

(** [list(set(n for n in node_list if n))] *)
Definition dedup_nonempty (node_list : list string) : list string :=
  elements (list_to_set (filter (fun n => Is_true (Py.truthy n)) node_list)
            : gset string).

(** [reduce_node_list], on the current [self.node_list]. *)
Definition reduce_node_list (self : Self) (node_list : list string)
  : list string :=
  let node_list :=
    if Py.mem (self_hostname self) node_list
       && opts_no_local (self_opts self)
    then Py.remove (self_hostname self) node_list else node_list in
  let node_list :=
    fold_left (fun nl i => if Py.mem i nl then Py.remove i nl else nl)
              (self_ip_addrs self) node_list in
  let node_list :=
    match self_master self with
    | Some m =>
        for_remove (fun n => String.eqb n (hostname m)
                             || String.eqb n (opts_master (self_opts self)))
                   node_list
    | None => node_list
    end in
  dedup_nonempty node_list.

Section GetNodes.

(** [fnmatch_match regex node]: [re.match(fnmatch.translate(regex), node)]
    finds a match ([false] also when it raises [re.error]). *)
Variable fnmatch_match : string -> string -> bool.

(** [compare_node_to_regex] *)
Definition compare_node_to_regex (self : Self) (node : string) : bool :=
  existsb (fun regex => fnmatch_match regex node) (opts_nodes (self_opts self)).

(** [get_nodes_from_cluster]: [None] is Python's [None]. *)
Definition get_nodes_from_cluster (self : Self)
  : outcome (option (list string)) :=
  match self_cluster_type self with
  | None => Raise AttributeError
  | Some t =>
      if Py.truthy t then
        match self_cluster self with
        | Some c =>
            match master c with
            | Some m => nodes ← get_nodes_result c m; Ret (Some nodes)
            | None => Raise AttributeError
            end
        | None => Raise AttributeError
        end
      else Ret None
  end.

(** The [try] block of [get_nodes]: the new [self.node_list], which
    starts as the empty list. *)
Definition get_nodes_try (self : Self) : outcome (option (list string)) :=
  nodes ← get_nodes_from_cluster self;
  match opts_nodes (self_opts self) with
  | [] => Ret nodes
  | _ =>
      match nodes with
      | Some nodes => Ret (Some ([] ++ filter (fun node =>
                         Is_true (compare_node_to_regex self node)) nodes))
      | None => Raise TypeError
      end
  end.

(** The steps of [get_nodes] up to the call of [reduce_node_list]: the
    value of [self.node_list] at that call.

    In the [except] branch [self.node_list] and [self.opts.nodes] are the
    same list object, so the pruning loop changes both: [opts_nodes'] is
    [self.opts.nodes] as the following loop reads it. *)
Definition get_nodes_gather (self : Self) : outcome (list string) :=
  let opts := self_opts self in
  if negb (bool_decide (is_Some (self_master self)))
     && negb (bool_decide (is_Some (self_cluster self)))
  then _exit ("Could not determine a cluster type and no list of "
              +:+ "nodes or master node was provided." +:+ String "010" ""
              +:+ "Aborting...") 1
  else
    st ← match get_nodes_try self with
         | Ret node_list => Ret (node_list, opts_nodes opts)
         | Exit c s => Exit c s
         | Raise _ =>
             let node_list :=
               for_remove (Py.contains_any ["*"; "\"; "?"; "("; ")"; "/"]%char)
                          (opts_nodes opts) in
             Ret (Some node_list, node_list)
         end;
    let '(node_list, opts_nodes') := st in
    node_list ←
      match opts_nodes' with
      | [] => Ret node_list
      | _ =>
          match node_list with
          | Some node_list =>
              Ret (Some (fold_left (fun nl node =>
                     if Py.contains_any
                          ["*"; "\"; "?"; "("; ")"; "/"; "["; "]"]%char node
                     then nl
                     else if negb (Py.mem node nl) then nl ++ [node] else nl)
                   opts_nodes' node_list))
          | None => Raise TypeError
          end
      end;
    match node_list with
    | None => Raise TypeError
    | Some node_list =>
        match self_master self with
        | Some _ => Ret node_list
        | None =>
            host ← index (Py.split "." (self_hostname self)) 0%nat;
            let node_list :=
              for_remove (fun node =>
                match Py.split "." node with
                | h :: _ => String.eqb host h
                | [] => false
                end) node_list in
            Ret (node_list ++ [self_hostname self])
        end
    end.

(** [get_nodes]: the new [self.node_list] and [self.commons['hostlen']]. *)
Definition get_nodes (self : Self) : outcome (list string * nat) :=
  node_list ← get_nodes_gather self;
  let node_list := reduce_node_list self node_list in
  let hostlen :=
    match node_list with
    | [] => String.length (opts_master (self_opts self))
    | _ => foldr (fun n acc => Nat.max (String.length n) acc) 0%nat node_list
    end in
  Ret (node_list, hostlen).

End GetNodes.

(** ** [configure_sos_cmd] *)

Inductive loglevel : Type := DEBUG | INFO | WARN | ERROR.

(** What [configure_sos_cmd] leaves behind: [self.sos_cmd],
    [self.opts.sos_opt_line], the messages logged, and how the call ended
    ([Ret true] for [return True], [Ret false] for falling off the end). *)
Record cmd_state : Type := mkCmdState {
  sos_cmd : string;
  sos_opt_line : option string;
  logged : list (loglevel * string);
  ended : outcome bool
}.

Section SosCmd.

(** [pipes.quote] on a string. Applied to the integer [log_size] it raises
    [TypeError] instead (its regular expression search rejects a
    non-string). *)
Variable quote : string -> string.

(** [if cond: self.sos_cmd += flag] *)
Definition add_flag (cond : bool) (flag : string) (cmd : string) : string :=
  if cond then cmd +:+ flag else cmd.

(** [' --opt=%s' % quote(value)] for an option that is set. *)
Definition add_quoted (x : option string) (flag : string) (cmd : string)
  : string :=
  match x with
  | Some v => add_flag (Py.truthy v) (flag +:+ quote v) cmd
  | None => cmd
  end.

(** The flag-by-flag path, from [if self.opts.case_id:] on. *)
Definition per_flag_cmd (opts : Options) (line : option string)
    (logged : list (loglevel * string)) (cmd : string) : cmd_state :=
  let cmd := add_quoted (opts_case_id opts) " --case-id=" cmd in
  let cmd := add_flag (opts_alloptions opts) " --alloptions" cmd in
  let cmd := add_flag (opts_all_logs opts) " --all-logs" cmd in
  let cmd := add_flag (opts_verify opts) " --verify" cmd in
  if negb (Z.eqb (opts_log_size opts) 0) then
    mkCmdState cmd line logged (Raise TypeError)
  else
    let cmd := add_quoted (opts_sysroot opts) " -s " cmd in
    let cmd := add_quoted (opts_chroot opts) " -c " cmd in
    let cmd := add_quoted (opts_compression opts) " -z " cmd in
    mkCmdState cmd line
      (logged ++ [(DEBUG, "Initial sos cmd set to " +:+ cmd)]) (Ret false).

Definition filt : list ascii := ["&"; "|"; ">"; "<"; ";"]%char.

(** [configure_sos_cmd] *)
Definition configure_sos_cmd (opts : Options) : cmd_state :=
  let cmd := "sosreport --batch" in
  match opts_sos_opt_line opts with
  | Some line =>
      if Py.truthy line then
        if Py.contains_any filt line then
          per_flag_cmd opts None
            [(WARN, "Possible shell script found in provided sos "
                    +:+ "command. Ignoring --sos-opt-line entirely.")] cmd
        else
          let cmd := cmd +:+ " " +:+ quote line in
          mkCmdState cmd (Some line)
            [(DEBUG, "User specified manual sosreport command. "
                     +:+ "Command set to " +:+ cmd)] (Ret true)
      else per_flag_cmd opts (Some line) [] cmd
  | None => per_flag_cmd opts None [] cmd
  end.

End SosCmd.

(** ** The archive: [_get_archive_name], [_get_archive_path],
    [create_sos_archive] and the end of [collect] *)

(** [datetime.now()], the fields [strftime] prints. *)
Record datetime : Type := mkDate { year : nat; month : nat; day : nat }.

Definition digit (n : nat) : ascii := ascii_of_nat (48 + n mod 10).

(** [%m] and [%d]: two digits, zero-padded. *)
Definition two_digits (n : nat) : string :=
  String (digit (n / 10)) (String (digit n) "").

(** [%Y]: the year in decimal, which the C library does not pad. *)
Definition fmt_year (y : nat) : string :=
  (if (1000 <=? y)%nat then String (digit (y / 1000)) "" else "")
  +:+ (if (100 <=? y)%nat then String (digit (y / 100)) "" else "")
  +:+ (if (10 <=? y)%nat then String (digit (y / 10)) "" else "")
  +:+ String (digit y) "".

(** [datetime.strftime(now, '%Y-%m-%d')] *)
Definition strftime_ymd (now : datetime) : string :=
  fmt_year (year now) +:+ "-" +:+ two_digits (month now) +:+ "-"
  +:+ two_digits (day now).

Definition ascii_lowercase : string := "abcdefghijklmnopqrstuvwxyz".

(** [random.choice(string.lowercase)]: [r] is what the generator draws;
    the index used is always within the sequence. *)
Definition random_choice (r : nat) : ascii :=
  match String.get (r mod String.length ascii_lowercase) ascii_lowercase with
  | Some c => c
  | None => "a"%char
  end.

Section Archive.

(** The clock, and the generator's successive draws. *)
Variable now : datetime.
Variable rng : nat -> nat.

(** [_get_archive_name] *)
Definition _get_archive_name (opts : Options) : string :=
  let nstr := "sos-collector" in
  let nstr := match opts_label opts with
              | Some l => if Py.truthy l then nstr +:+ "-" +:+ l else nstr
              | None => nstr
              end in
  let nstr := match opts_case_id opts with
              | Some c => if Py.truthy c then nstr +:+ "-" +:+ c else nstr
              | None => nstr
              end in
  let dt := strftime_ymd now in
  let rand := string_of_list_ascii
                (map (fun x => random_choice (rng x)) (seq 0 5)) in
  nstr +:+ "-" +:+ dt +:+ "-" +:+ rand.

(** [_get_archive_path]: sets [self.arc_name] and returns the path; the
    pair is ([arc_name], path). *)
Definition _get_archive_path (tmpdir : string) (opts : Options)
  : string * string :=
  let arc_name := _get_archive_name opts in
  let compr := "gz" in
  (arc_name, tmpdir +:+ arc_name +:+ ".tar." +:+ compr).

End Archive.


Module Path.

(** [s.endswith('/')]-style test for a one-character suffix. *)
Fixpoint endswith (c : ascii) (s : string) : bool :=
  match s with
  | EmptyString => false
  | String d EmptyString => Ascii.eqb d c
  | String _ s' => endswith c s'
  end.

(** [sub in s] for strings. *)
Fixpoint has_substring (sub s : string) : bool :=
  String.prefix sub s
  || match s with
     | EmptyString => false
     | String _ s' => has_substring sub s'
     end.

(** [os.path.join(a, p)] on POSIX. *)
Definition join (a p : string) : string :=
  if String.prefix "/" p then p
  else if negb (Py.truthy a) || endswith "/" a then a +:+ p
  else a +:+ "/" +:+ p.

(** [fname.split('/')[-1]] *)
Definition basename (fname : string) : string :=
  List.last (Py.split "/" fname) "".

End Path.

(** What the file system lets [tarfile] do: open the archive for writing,
    and add a file from a given path. *)
Record tar_env : Type := mkTarEnv {
  tar_open_ok : string -> bool;
  tar_add_ok : string -> bool
}.

(** The archive written: its path ([self.archive]), its root directory
    ([self.arc_name]), the member names added, and the members whose
    addition failed and was logged. *)
Record archive : Type := mkArchive {
  archive_path : string;
  arc_root : string;
  members : list string;
  add_errors : list string
}.

Section Collect.

Variable now : datetime.
Variable rng : nat -> nat.
Variable env : tar_env.

(** The attributes of [self] the end of a run reads. *)
Record run : Type := mkRun {
  run_opts : Options;
  tmpdir : string;
  client_list : list SosNode;
  retrieved : nat;
  sos_log_file : string;
  sos_ui_log_file : string
}.

(** The body of [for fname in host.file_list], with its own [try]. *)
Definition add_file (r : run) (root : string) (acc : list string * list string)
    (fname : string) : list string * list string :=
  let arc_name :=
    if Path.has_substring ".md5" fname
    then root +:+ "/md5/" +:+ Path.basename fname
    else root +:+ "/" +:+ Path.basename fname in
  if tar_add_ok env (Path.join (tmpdir r) fname)
  then (fst acc ++ [arc_name], snd acc)
  else (fst acc, snd acc ++ [arc_name]).

(** [create_sos_archive]: any exception outside the per-file [try] ends
    the run through [_exit(msg, 2)]. *)
Definition create_sos_archive (r : run) : outcome archive :=
  let '(arc_name, path) := _get_archive_path now rng (tmpdir r) (run_opts r) in
  if negb (tar_open_ok env path) then
    _exit "Could not create archive" 2
  else
    let '(added, failed) :=
      fold_left (fun acc host => fold_left (add_file r arc_name)
                                           (file_list host) acc)
                (client_list r) ([], []) in
    if negb (tar_add_ok env (sos_log_file r)) then
      _exit "Could not create archive" 2
    else if negb (tar_add_ok env (sos_ui_log_file r)) then
      _exit "Could not create archive" 2
    else
      Ret (mkArchive path arc_name
             (added ++ [arc_name +:+ "/logs/sos-collector.log";
                        arc_name +:+ "/logs/ui.log"])
             failed).

(** [create_cluster_archive]: the archive is what [create_sos_archive]
    wrote; the log messages and [cleanup] are not modelled. *)
Definition create_cluster_archive (r : run) : outcome archive :=
  create_sos_archive r.

(** The end of [collect], from the test of [self.retrieved] on. *)
Definition collect_finish (r : run) : outcome archive :=
  if (0 <? retrieved r)%nat then create_cluster_archive r
  else _exit "No sosreports were collected, nothing to archive..." 1.

End Collect.

(** ** Auxiliary definitions for the statements *)

(** [l] with [t] appended to its last element. *)
Definition extend_last (t : string) (l : list string) : list string :=
  match reverse l with
  | [] => []
  | x :: r => reverse r ++ [x +:+ t]
  end.

(** A profile derived from [b] that matches the primary node. *)
Definition layer_of (m : SosNode) (b x : Cluster) : bool :=
  issubclass x b && check_enabled x m.

(** Sample data: a primary node and some profiles. *)
Definition primary0 : SosNode := mkSosNode "localhost" "driver" true [].

Definition profile (cls : string) (bases : list string) (enabled : bool)
  : Cluster :=
  mkCluster cls bases cls [] (fun _ => enabled) (fun _ => Ret []) None.

Definition ovirt_profile : Cluster :=
  mkCluster "ovirt" [] "ovirt"
    [mkClusterOption "no-database" (VBool false) TBool "ovirt"]
    (fun _ => true) (fun _ => Ret []) None.

(** [opts] with [sos_opt_line] replaced. *)
Definition set_sos_opt_line (line : option string) (opts : Options) : Options :=
  mkOptions (opts_nodes opts) (opts_master opts) (opts_no_local opts)
    (opts_label opts) (opts_case_id opts) line (opts_alloptions opts)
    (opts_all_logs opts) (opts_verify opts) (opts_log_size opts)
    (opts_sysroot opts) (opts_chroot opts) (opts_compression opts).

(** [cmd] is [base] followed by further text. *)
Definition extends (base cmd : string) : Prop :=
  exists sfx, cmd = base +:+ sfx.

(** Sample data: a driver [driver.example.com] run with [--no-local] and
    [--master 10.0.0.5], whose profile enumerates [nodes]. *)
Definition sample_primary : SosNode :=
  mkSosNode "10.0.0.5" "primary.example.com" true [].

Definition sample_self (nodes : list string) : Self :=
  mkSelf "driver.example.com" ["192.168.1.10"] (Some sample_primary)
    (Some (mkCluster "kubernetes" [] "kubernetes" []
             (fun _ => true) (fun _ => Ret nodes) (Some sample_primary)))
    (Some "kubernetes")
    (mkOptions [] "10.0.0.5" true None None None false false false 0
               None None None).

(** What [parse_node_strings] makes of one node string, read character
    by character: [cur] is the token being read. A comma ends the token
    unless the token has an opening bracket and no closing one; at the end
    of the string such a token is left out. *)
Fixpoint code_tokens (cur : string) (s : string) : list string :=
  match s with
  | EmptyString => if splits_regex cur then [] else [cur]
  | String c s' =>
      if Ascii.eqb c "," && negb (splits_regex cur)
      then cur :: code_tokens "" s'
      else code_tokens (cur +:+ String c "") s'
  end.

(** The tokenization rule: a comma is a separator exactly when the text
    since the previous separator is not inside a character class, judged
    by the test of the code; otherwise the comma belongs to the token. The
    end of the string closes the last token. *)
Fixpoint rule_tokens (cur : string) (s : string) : list string :=
  match s with
  | EmptyString => [cur]
  | String c s' =>
      if Ascii.eqb c "," && negb (splits_regex cur)
      then cur :: rule_tokens "" s'
      else rule_tokens (cur +:+ String c "") s'
  end.

(** The text after the last separator. *)
Definition last_token (node : string) : string :=
  List.last (rule_tokens "" node) "".

(** Bracket balance in the usual sense, as the specification words it:
    [depth] counts the brackets opened and not yet closed. *)
Fixpoint balanced_from (depth : nat) (s : string) : bool :=
  match s with
  | EmptyString => Nat.eqb depth 0
  | String c s' =>
      if Ascii.eqb c "[" then balanced_from (S depth) s'
      else if Ascii.eqb c "]" then
        match depth with
        | O => false
        | S d => balanced_from d s'
        end
      else balanced_from depth s'
  end.

Definition balanced_brackets (s : string) : bool := balanced_from 0 s.

(** The link between the text sliced by the code, [reg], and the token
    [cur]: [reg] is [cur], possibly after the separating comma, and [cur]
    does not begin with a comma. *)
Definition seg_inv (reg cur : string) : Prop :=
  (reg = cur \/ reg = String "," cur)
  /\ match cur with
     | String x _ => x <> ","%char
     | EmptyString => True
     end.

(** *** The pattern of archive names

    Regular expressions, as far as the pattern of the specification needs
    them, with the usual matching relation; [Matches r s] is a match of
    the whole of [s]. *)
Inductive regex : Type :=
  | Lit (s : string)
  | Class (p : ascii -> bool)
  | Cat (r1 r2 : regex)
  | Opt (r : regex)
  | Plus (r : regex)
  | Rep (n : nat) (r : regex).

Inductive Matches : regex -> string -> Prop :=
  | MLit s : Matches (Lit s) s
  | MClass (p : ascii -> bool) c :
      p c = true -> Matches (Class p) (String c "")
  | MCat r1 r2 s1 s2 :
      Matches r1 s1 -> Matches r2 s2 -> Matches (Cat r1 r2) (s1 +:+ s2)
  | MOptNone r : Matches (Opt r) ""
  | MOptSome r s : Matches r s -> Matches (Opt r) s
  | MPlusOne r s : Matches r s -> Matches (Plus r) s
  | MPlusMore r s1 s2 :
      Matches r s1 -> Matches (Plus r) s2 -> Matches (Plus r) (s1 +:+ s2)
  | MRepO r : Matches (Rep 0 r) ""
  | MRepS n r s1 s2 :
      Matches r s1 -> Matches (Rep n r) s2 ->
      Matches (Rep (S n) r) (s1 +:+ s2).

Definition in_range (lo hi : nat) (c : ascii) : bool :=
  (lo <=? nat_of_ascii c)%nat && (nat_of_ascii c <=? hi)%nat.

(** [\d], [[a-z]], [[A-Z]] and [[A-Za-z0-9_-]] on ASCII. *)
Definition is_digit : ascii -> bool := in_range 48 57.
Definition is_lower : ascii -> bool := in_range 97 122.
Definition is_upper : ascii -> bool := in_range 65 90.
Definition is_word (c : ascii) : bool :=
  is_upper c || is_lower c || is_digit c
  || Ascii.eqb c "_" || Ascii.eqb c "-".

(** [^sos-collector(-[A-Za-z0-9_-]+)?(-[A-Za-z0-9_-]+)?-\d{4}-\d{2}-\d{2}-[a-z]{5}$] *)
Definition archive_re : regex :=
  Cat (Lit "sos-collector")
 (Cat (Opt (Cat (Lit "-") (Plus (Class is_word))))
 (Cat (Opt (Cat (Lit "-") (Plus (Class is_word))))
 (Cat (Lit "-")
 (Cat (Rep 4 (Class is_digit))
 (Cat (Lit "-")
 (Cat (Rep 2 (Class is_digit))
 (Cat (Lit "-")
 (Cat (Rep 2 (Class is_digit))
 (Cat (Lit "-")
      (Rep 5 (Class is_lower))))))))))).

(** Every character of [s] satisfies [p]. *)
Fixpoint all_chars (p : ascii -> bool) (s : string) : bool :=
  match s with
  | EmptyString => true
  | String c s' => p c && all_chars p s'
  end.

(** A label or case id, when given, is made of [[A-Za-z0-9_-]] only. *)
Definition word_only (x : option string) : bool :=
  match x with
  | Some s => all_chars is_word s
  | None => true
  end.

(** [-x] for an option that is set, nothing otherwise. *)
Definition dash_part (x : option string) : string :=
  match x with
  | Some s => if Py.truthy s then "-" +:+ s else ""
  | None => ""
  end.

(** Everything [r] can match is made of characters satisfying [p]. *)
Fixpoint regex_within (p : ascii -> bool) (r : regex) : Prop :=
  match r with
  | Lit s => all_chars p s = true
  | Class q => forall c, q c = true -> p c = true
  | Cat r1 r2 => regex_within p r1 /\ regex_within p r2
  | Opt r | Plus r | Rep _ r => regex_within p r
  end.

(** A date [datetime.now()] can return, in a year of four digits. *)
Definition four_digit_date (d : datetime) : Prop :=
  (1000 <= year d < 100 * 100 /\ 1 <= month d <= 12 /\ 1 <= day d <= 31)%nat.

(** The five letters [_get_archive_name] draws. *)
Definition rand5 (rng : nat -> nat) : string :=
  string_of_list_ascii (map (fun x => random_choice (rng x)) (seq 0 5)).

(** Sample options with a label and a case id. *)
Definition sample_opts (label case_id : option string) : Options :=
  mkOptions [] "" false label case_id None false false false 0 None None None.

(** What the removing loop makes of a list without duplicates: an entry
    that satisfies the test goes, and the entry after it is passed over
    untested. *)
Fixpoint skip_remove (p : string -> bool) (l : list string) : list string :=
  match l with
  | [] => []
  | n :: rest =>
      if p n then
        match rest with
        | [] => []
        | n' :: rest' => n' :: skip_remove p rest'
        end
      else n :: skip_remove p rest
  end.

(** No two neighbours in [l] both satisfy [p]. *)
Fixpoint no_adjacent (p : string -> bool) (l : list string) : bool :=
  match l with
  | a :: (b :: _) as rest => negb (p a && p b) && no_adjacent p rest
  | _ => true
  end.

(** An override is given and holds none of the filtered characters. *)
Definition clean_override (opts : Options) : bool :=
  match opts_sos_opt_line opts with
  | Some line => Py.truthy line && negb (Py.contains_any filt line)
  | None => false
  end.

(** The loop of [get_nodes] that adds the plain node names of [--nodes]
    to the node list. *)
Definition force_add (src node_list : list string) : list string :=
  fold_left (fun nl node =>
               if Py.contains_any
                    ["*"; "\"; "?"; "("; ")"; "/"; "["; "]"]%char node
               then nl
               else if negb (Py.mem node nl) then nl ++ [node] else nl)
            src node_list.

(** The test the loop over the primary applies. *)
Definition is_primary (self : Self) (m : SosNode) (n : string) : bool :=
  String.eqb n (hostname m)
  || String.eqb n (opts_master (self_opts self)).

(** [fnmatch] for the patterns of the samples: a text, or a text followed
    by one star. *)
Definition glob_match (regex node : string) : bool :=
  if Path.endswith "*" regex
  then String.prefix (String.substring 0 (String.length regex - 1) regex) node
  else String.eqb regex node.

(** Sample data: the driver of [sample_self] run with [--nodes], with a
    profile whose enumeration gives [enumerated]. *)
Definition sample_self_nodes (opts_nodes : list string)
    (enumerated : outcome (list string)) : Self :=
  mkSelf "driver.example.com" ["192.168.1.10"] (Some sample_primary)
    (Some (mkCluster "kubernetes" [] "kubernetes" []
             (fun _ => true) (fun _ => enumerated) (Some sample_primary)))
    (Some "kubernetes")
    (mkOptions opts_nodes "10.0.0.5" true None None None false false false 0
               None None None).

(** Sample data: a driver without a primary session and without
    [--no-local]. *)
Definition sample_self_local (enumerated : list string) : Self :=
  mkSelf "driver.example.com" ["192.168.1.10"] None
    (Some (mkCluster "kubernetes" [] "kubernetes" []
             (fun _ => true) (fun _ => Ret enumerated) (Some sample_primary)))
    (Some "kubernetes")
    (mkOptions [] "" false None None None false false false 0
               None None None).

(** A member directly under the root, or under its [md5] or [logs]
    directory, with a file name free of slashes. *)
Definition flat_member (root mbr : string) : Prop :=
  exists b, Py.contains "/" b = false
            /\ (mbr = root +:+ "/" +:+ b
                \/ mbr = root +:+ "/md5/" +:+ b
                \/ mbr = root +:+ "/logs/" +:+ b).

(** Sample data: two nodes with their retrieved files, in a run whose
    file system refuses the file [broken]. *)
Definition sample_run : run :=
  mkRun (sample_opts None None) "/var/tmp/sos.k3x9a1"
    [mkSosNode "node1" "node1" true
       ["sosreport-node1.tar.xz"; "sosreport-node1.tar.xz.md5"];
     mkSosNode "node2" "node2" true ["broken"]]
    2 "/var/tmp/sos.k3x9a1/sos.log" "/var/tmp/sos.k3x9a1/ui.log".

Definition sample_env : tar_env :=
  mkTarEnv (fun _ => true)
           (fun p => negb (String.eqb p "/var/tmp/sos.k3x9a1/broken")).

(** ** Further parts of the collector *)

(** *** The host group store: [write_host_group], [_load_group_config]

    A host group file holds a JSON document. The values that occur are
    strings, lists of strings and [null]; [json.dump] and [json.load] are
    taken to be inverse to each other, so a file is modelled by the
    document it holds ([None] for a file that is not a JSON object, an
    empty file among them). Paths are compared as strings. [fs_modes]
    holds the permission bits of the files. *)
Inductive json : Type :=
  | JNull
  | JStr (s : string)
  | JList (l : list string).

(** [if value:] *)
Definition json_truthy (j : json) : bool :=
  match j with
  | JNull => false
  | JStr s => Py.truthy s
  | JList l => match l with [] => false | _ => true end
  end.

(** What [list.extend(value)] appends: the entries of a list, the
    characters of a string. *)
Definition json_items (j : json) : outcome (list string) :=
  match j with
  | JNull => Raise TypeError
  | JStr s => Ret (map (fun c => String c "") (list_ascii_of_string s))
  | JList l => Ret l
  end.

Record filesystem : Type := mkFs {
  fs_dirs : gset string;
  fs_files : gmap string (option (gmap string json));
  fs_modes : gmap string Z
}.

(** [os.path.exists] and [os.path.isdir] *)
Definition path_exists (fs : filesystem) (p : string) : bool :=
  bool_decide (p ∈ fs_dirs fs) || bool_decide (is_Some (fs_files fs !! p)).

Definition path_isdir (fs : filesystem) (p : string) : bool :=
  bool_decide (p ∈ fs_dirs fs).

Definition COLLECTOR_LIB_DIR : string := "/var/lib/sos-collector".

(** [s.rstrip('/')]-style stripping of one trailing character class. *)
Definition rstrip (c : ascii) (s : string) : string :=
  String.rev (Py.lstrip c (String.rev s)).

(** [os.path.dirname] on POSIX: the text up to the last slash, without
    its trailing slashes unless it is made of slashes only. *)
Definition path_dirname (p : string) : string :=
  let head := String.concat ""
                (map (fun x => x +:+ "/") (removelast (Py.split "/" p))) in
  if Py.truthy (Py.lstrip "/" head) then rstrip "/" head else head.

(** [d[key]] on a dict. *)
Definition dict_get (d : gmap string json) (key : string) : outcome json :=
  match d !! key with
  | Some v => Ret v
  | None => Raise KeyError
  end.

(** The options [_load_group_config] reads and sets; [setattr] stores the
    JSON value as it is. *)
Record load_opts : Type := mkLoadOpts {
  lo_group : string;
  lo_master : json;
  lo_cluster_type : json;
  lo_nodes : list string
}.

(** [_load_group_config]: the options as the call leaves them, also when
    it fails half way, and how it ended. *)
Definition _load_group_config (fs : filesystem) (opts : load_opts)
  : load_opts * outcome unit :=
  let group := lo_group opts in
  let found :=
    if path_exists fs group then Ret group
    else if path_exists fs (Path.join COLLECTOR_LIB_DIR group)
    then Ret (Path.join COLLECTOR_LIB_DIR group)
    else Raise (OtherError "OSError: Group not found") in
  match (fname ← found;
         match fs_files fs !! fname with
         | Some (Some doc) => Ret doc
         | Some None => Raise (OtherError "ValueError")
         | None => Raise (OtherError "OSError")
         end) with
  | Ret _group =>
      match dict_get _group "master" with
      | Ret v =>
          let opts := if json_truthy v
                      then mkLoadOpts group v (lo_cluster_type opts)
                                      (lo_nodes opts)
                      else opts in
          match dict_get _group "cluster_type" with
          | Ret v =>
              let opts := if json_truthy v
                          then mkLoadOpts group (lo_master opts) v
                                          (lo_nodes opts)
                          else opts in
              match dict_get _group "nodes" with
              | Ret v =>
                  if json_truthy v then
                    match json_items v with
                    | Ret items =>
                        (mkLoadOpts group (lo_master opts)
                           (lo_cluster_type opts) (lo_nodes opts ++ items),
                         Ret tt)
                    | Exit c s => (opts, Exit c s)
                    | Raise e => (opts, Raise e)
                    end
                  else (opts, Ret tt)
              | Exit c s => (opts, Exit c s)
              | Raise e => (opts, Raise e)
              end
          | Exit c s => (opts, Exit c s)
          | Raise e => (opts, Raise e)
          end
      | Exit c s => (opts, Exit c s)
      | Raise e => (opts, Raise e)
      end
  | Exit c s => (opts, Exit c s)
  | Raise e => (opts, Raise e)
  end.

(** What the operating system lets the process do, beyond what the
    modelled file system shows: open a path for writing (the rights on the
    file and on its directory), write all the data to it (room on the
    device), change its mode (ownership of the file). [umask] is the mask
    a new file is created under. *)
Record os_env : Type := mkOsEnv {
  open_ok : string -> bool;
  write_ok : string -> bool;
  chmod_ok : string -> bool;
  umask : Z
}.

(** [open(p, 'w')]: the file is created, with the mode [0o666 & ~umask],
    or emptied, keeping its mode. It fails when [p] names a directory
    (also as [dir/], [dir/.] and [dir/..]) or lies in no directory, and
    when the system refuses. *)
Definition open_w (os : os_env) (fs : filesystem) (p : string)
  : option filesystem :=
  if path_isdir fs p || Path.endswith "/" p
     || Py.mem (Path.basename p) ["."; ".."]
     || negb (path_isdir fs (path_dirname p))
     || negb (open_ok os p)
  then None
  else Some (mkFs (fs_dirs fs) (<[p := None]> (fs_files fs))
               (match fs_files fs !! p with
                | Some _ => fs_modes fs
                | None => <[p := Z.land 438 (Z.lnot (umask os))]> (fs_modes fs)
                end)).

(** [json.dump(doc, hf)] and the end of the [with] block, on the file
    opened at [p]: the file holds the document when all of it could be
    written; otherwise it is left with a part of the text, and the error
    goes on. *)
Definition json_dump (os : os_env) (fs : filesystem) (p : string)
    (doc : gmap string json) : filesystem * outcome unit :=
  if write_ok os p then
    (mkFs (fs_dirs fs) (<[p := Some doc]> (fs_files fs)) (fs_modes fs),
     Ret tt)
  else (fs, Raise (OtherError "OSError")).

(** [os.chmod(p, mode)] *)
Definition chmod (os : os_env) (fs : filesystem) (p : string) (mode : Z)
  : filesystem * outcome unit :=
  if negb (path_exists fs p) then (fs, Raise (OtherError "OSError"))
  else if negb (chmod_ok os p) then (fs, Raise (OtherError "OSError"))
  else (mkFs (fs_dirs fs) (fs_files fs) (<[p := mode]> (fs_modes fs)),
        Ret tt).

(** [write_host_group], for [self.opts.save_group] and [self.node_list]:
    the file system afterwards and the file name returned. The file is
    opened, which empties it, then written, then given the mode [0o644]
    (420); each of the three steps can fail, and what the steps before it
    did to the file stays. *)
Definition write_host_group (os : os_env) (fs : filesystem) (self : Self)
    (save_group : string) (node_list : list string)
  : filesystem * outcome string :=
  match self_cluster_type self with
  | None => (fs, Raise AttributeError)
  | Some cluster_type =>
      let cfg : gmap string json :=
        <["name" := JStr save_group]>
        (<["master" := JStr (opts_master (self_opts self))]>
        (<["cluster_type" := JStr cluster_type]>
        (<["nodes" := JList node_list]> ∅))) in
      if negb (path_isdir fs COLLECTOR_LIB_DIR) then
        (fs, Raise (OtherError "OSError: no such directory"))
      else
        let fname := COLLECTOR_LIB_DIR +:+ "/" +:+ save_group in
        match open_w os fs fname with
        | None => (fs, Raise (OtherError "OSError"))
        | Some fs =>
            match json_dump os fs fname cfg with
            | (fs, Ret _) =>
                match chmod os fs fname 420 with
                | (fs, Ret _) => (fs, Ret fname)
                | (fs, Exit c s) => (fs, Exit c s)
                | (fs, Raise e) => (fs, Raise e)
                end
            | (fs, Exit c s) => (fs, Exit c s)
            | (fs, Raise e) => (fs, Raise e)
            end
        end
  end.

(** *** The passwords asked for in [prep] *)

Inductive prompt : Type := AskSsh | AskSudo | AskRoot.

(** [if value:] *)
Definition py_truthy (v : pyvalue) : bool :=
  match v with
  | VStr s => Py.truthy s
  | VBool b => b
  | VInt z => negb (z =? 0)%Z
  end.

(** The options this part of [prep] reads and sets. [opts_password] is
    the flag of [--password] until the password typed takes its place. *)
Record cred_opts : Type := mkCredOpts {
  opts_password : pyvalue;
  opts_password_per_node : bool;
  opts_ssh_user : string;
  opts_insecure_sudo : bool;
  opts_become_root : bool;
  opts_sudo_pw : option pyvalue;
  opts_root_password : option string
}.

(** The options afterwards, [self.commons['need_sudo']], and the prompts
    shown, in order. *)
Record cred_state : Type := mkCredState {
  cred : cred_opts;
  need_sudo : bool;
  prompts : list prompt
}.

Section Credentials.

(** What the user types at each prompt. *)
Variable getpass : prompt -> string.

(** [prep], from the test of [self.opts.password] to the end of the
    [become_root] block; [need_sudo] starts as [_parse_options] sets it. *)
Definition prep_credentials (o : cred_opts) : cred_state :=
  let need_sudo := negb (String.eqb (opts_ssh_user o) "root") in
  let st :=
    if py_truthy (opts_password o) || opts_password_per_node o then
      (mkCredOpts (VStr (getpass AskSsh)) (opts_password_per_node o)
         (opts_ssh_user o) (opts_insecure_sudo o) (opts_become_root o)
         (opts_sudo_pw o) (opts_root_password o), [AskSsh])
    else (o, []) in
  let '(o, asked) := st in
  let st :=
    if need_sudo && negb (opts_insecure_sudo o) then
      if negb (py_truthy (opts_password o)) then
        (mkCredOpts (opts_password o) (opts_password_per_node o)
           (opts_ssh_user o) (opts_insecure_sudo o) (opts_become_root o)
           (Some (VStr (getpass AskSudo))) (opts_root_password o),
         asked ++ [AskSudo])
      else if negb (opts_insecure_sudo o) then
        (mkCredOpts (opts_password o) (opts_password_per_node o)
           (opts_ssh_user o) (opts_insecure_sudo o) (opts_become_root o)
           (Some (opts_password o)) (opts_root_password o), asked)
      else (o, asked)
    else (o, asked) in
  let '(o, asked) := st in
  if opts_become_root o then
    if negb (String.eqb (opts_ssh_user o) "root") then
      mkCredState
        (mkCredOpts (opts_password o) (opts_password_per_node o)
           (opts_ssh_user o) (opts_insecure_sudo o) (opts_become_root o)
           (opts_sudo_pw o) (Some (getpass AskRoot)))
        false (asked ++ [AskRoot])
    else
      mkCredState
        (mkCredOpts (opts_password o) (opts_password_per_node o)
           (opts_ssh_user o) (opts_insecure_sudo o) false
           (opts_sudo_pw o) (opts_root_password o))
        need_sudo asked
  else mkCredState o need_sudo asked.

End Credentials.

(** *** The choice of the profile in [prep] *)

(** [self.clusters[key]] *)
Definition registry_get (clusters : registry) (key : string)
  : outcome Cluster :=
  match find (fun kv => String.eqb key (fst kv)) clusters with
  | Some kv => Ret (snd kv)
  | None => Raise KeyError
  end.

(** [prep], from the test of [self.opts.cluster_type] to the exit for a
    run without profile and without nodes: the new [self.cluster]. *)
Definition prep_cluster (clusters : registry) (m : SosNode)
    (opts_cluster_type : option string) (opts_nodes : list string)
  : outcome (option Cluster) :=
  cluster ←
    match opts_cluster_type with
    | Some t =>
        if Py.truthy t then
          c ← (if String.eqb t "none" then registry_get clusters "jbon"
               else registry_get clusters t);
          Ret (Some (set_master m c))
        else Ret (determine_cluster clusters m)
    | None => Ret (determine_cluster clusters m)
    end;
  match cluster, opts_nodes with
  | None, [] =>
      _exit ("Cluster type could not be determined and no nodes provided"
             +:+ String "010" "" +:+ "Aborting...") 1
  | _, _ => Ret cluster
  end.

(** *** [_import_modules] *)

(** The loop of [_import_modules] over the classes of a module, given by
    name as [inspect.getmembers] lists them. *)
Definition _import_modules (members : list string) : list string :=
  for_remove (fun name => Py.mem name ["SosHost"; "Cluster"]) members.

(** Sample data: a file system with the collector's directory and
    nothing else, and a system that refuses nothing, with the usual mask
    [0o022]. *)
Definition sample_fs : filesystem :=
  mkFs {[ "/var/lib/sos-collector" ]} ∅ ∅.

Definition sample_os : os_env :=
  mkOsEnv (fun _ => true) (fun _ => true) (fun _ => true) 18.

(** Sample data: the collector's directory with the group [lab] saved
    earlier, and a system on which the device is full. *)
Definition sample_fs_lab : filesystem :=
  mkFs {[ "/var/lib/sos-collector" ]}
       {[ "/var/lib/sos-collector/lab" :=
            Some (<["name" := JStr "lab"]>
                  (<["master" := JStr "10.0.0.5"]>
                  (<["cluster_type" := JStr "kubernetes"]>
                  (<["nodes" := JList ["node1"; "node2"]]> ∅)))) ]}
       {[ "/var/lib/sos-collector/lab" := 420%Z ]}.

Definition sample_os_full : os_env :=
  mkOsEnv (fun _ => true) (fun _ => false) (fun _ => true) 18.

(** *** [load_clusters] *)

(** [d[k] = v] on a dict: a key already there keeps its place and gets
    the new value, a new key goes to the end. *)
Fixpoint dict_set (d : registry) (k : string) (v : Cluster) : registry :=
  match d with
  | [] => [(k, v)]
  | (k', v') :: d' =>
      if String.eqb k k' then (k, v) :: d'
      else (k', v') :: dict_set d' k v
  end.

(** [load_clusters], from the classes [_load_modules] found, each with
    the instance its constructor makes. *)
Definition load_clusters (clusters : list (string * Cluster)) : registry :=
  fold_left (fun supported cluster =>
               dict_set supported (fst cluster) (snd cluster))
            clusters [].

(** * Properties *)

(** ** Strings *)

Lemma app_cons_s (x : ascii) (a b : string) :
  String x a +:+ b = String x (a +:+ b).
Proof. reflexivity. Qed.

Lemma app_nil_l_s (b : string) : "" +:+ b = b.
Proof. reflexivity. Qed.

Lemma app_assoc_s (a b c : string) : (a +:+ b) +:+ c = a +:+ (b +:+ c).
Proof.
  induction a as [|x a IH]; [reflexivity|].
  rewrite !app_cons_s. now rewrite IH.
Qed.

Lemma app_nil_r_s (a : string) : a +:+ "" = a.
Proof.
  induction a as [|x a IH]; [reflexivity|].
  rewrite app_cons_s. now rewrite IH.
Qed.

Lemma length_app_s (a b : string) :
  String.length (a +:+ b) = (String.length a + String.length b)%nat.
Proof.
  induction a as [|x a IH]; [reflexivity|].
  rewrite app_cons_s. simpl. now rewrite IH.
Qed.

Lemma contains_app (c : ascii) (a b : string) :
  Py.contains c (a +:+ b) = Py.contains c a || Py.contains c b.
Proof.
  induction a as [|x a IH]; [reflexivity|].
  rewrite app_cons_s. simpl. rewrite IH. now rewrite orb_assoc.
Qed.

(** ** [str.split] *)

Lemma split_nonempty (sep : ascii) (s : string) : Py.split sep s <> [].
Proof.
  destruct s as [|c s]; simpl; [discriminate|].
  destruct (Ascii.eqb c sep); [discriminate|].
  destruct (Py.split sep s); discriminate.
Qed.

(** A string without the separator is its own single piece. *)
Lemma split_absent (sep : ascii) (s : string) :
  Py.contains sep s = false -> Py.split sep s = [s].
Proof.
  induction s as [|c s IH]; simpl; [reflexivity|].
  intros H. apply orb_false_iff in H as [Hc Hs].
  rewrite Ascii.eqb_sym, Hc, (IH Hs). reflexivity.
Qed.

(** No piece contains a character the whole string does not. *)
Lemma split_pieces_absent (c sep : ascii) (s : string) :
  Py.contains c s = false ->
  Forall (fun p => Py.contains c p = false) (Py.split sep s).
Proof.
  induction s as [|x s IH]; simpl; intros H.
  - repeat constructor.
  - apply orb_false_iff in H as [Hx Hs]. specialize (IH Hs).
    destruct (Ascii.eqb x sep).
    + constructor; [reflexivity | exact IH].
    + destruct (Py.split sep s) as [|h t]; inversion IH; subst;
        constructor; simpl; try rewrite Hx; auto.
Qed.

(** Appending text without the separator extends the last piece. *)
Lemma extend_last_cons (t x : string) (l : list string) :
  l <> [] -> extend_last t (x :: l) = x :: extend_last t l.
Proof.
  intros Hl. unfold extend_last. rewrite reverse_cons.
  destruct (reverse l) as [|y r] eqn:E.
  - apply (f_equal reverse) in E. rewrite reverse_involutive in E.
    now subst.
  - simpl. rewrite reverse_app, reverse_singleton. reflexivity.
Qed.

Lemma split_app_absent (sep : ascii) (s t : string) :
  Py.contains sep t = false ->
  Py.split sep (s +:+ t) = extend_last t (Py.split sep s).
Proof.
  intros Ht. induction s as [|c s IH].
  - rewrite app_nil_l_s. now rewrite (split_absent _ _ Ht).
  - rewrite app_cons_s. simpl. rewrite IH. pose proof (split_nonempty sep s) as Hne.
    destruct (Ascii.eqb c sep).
    + now rewrite extend_last_cons.
    + destruct (Py.split sep s) as [|h [|h2 tl]]; [congruence | reflexivity |].
      rewrite (extend_last_cons t h (h2 :: tl)) by discriminate.
      rewrite (extend_last_cons t (String c h) (h2 :: tl)) by discriminate.
      reflexivity.
Qed.

(** The first separator ends the first piece. *)
Lemma split_app_sep (sep : ascii) (s t : string) :
  Py.contains sep s = false ->
  Py.split sep (s +:+ String sep t) = s :: Py.split sep t.
Proof.
  induction s as [|c s IH]; intros H.
  - rewrite app_nil_l_s. simpl. now rewrite Ascii.eqb_refl.
  - simpl in H. apply orb_false_iff in H as [Hc Hs].
    rewrite app_cons_s. simpl. rewrite Ascii.eqb_sym, Hc, (IH Hs).
    reflexivity.
Qed.

(** A string with a separator has at least two pieces. *)
Lemma split_present (sep : ascii) (s : string) :
  Py.contains sep s = true ->
  exists a b rest, Py.split sep s = a :: b :: rest.
Proof.
  induction s as [|c s IH]; simpl; [discriminate|].
  intros H. rewrite Ascii.eqb_sym in H.
  destruct (Ascii.eqb c sep) eqn:E.
  - pose proof (split_nonempty sep s).
    destruct (Py.split sep s) as [|b rest]; [congruence|]. eauto.
  - simpl in H. destruct (IH H) as (a & b & rest & ->). eauto.
Qed.

(** ** Cluster options on the command line (C10, C4) *)

(** An argument without a dot fails at [option.split('.')[1]]. *)
Lemma cluster_option_locals_no_dot (option : string) :
  Py.contains "." option = false ->
  cluster_option_locals option = Raise IndexError.
Proof.
  intros H. unfold cluster_option_locals.
  now rewrite (split_absent "." option H).
Qed.

(** An argument with a dot gets its three local variables. *)
Lemma cluster_option_locals_dot (option : string) :
  Py.contains "." option = true ->
  exists c n v, cluster_option_locals option = Ret (c, n, v).
Proof.
  intros H. destruct (split_present "." option H) as (a & b & rest & Hsp).
  unfold cluster_option_locals. rewrite Hsp. simpl.
  pose proof (split_nonempty "=" b) as Hne.
  destruct (Py.split "=" b) as [|n ns]; [congruence|]. simpl. eauto.
Qed.

Lemma parse_cluster_option_no_dot (option : string) :
  Py.contains "." option = false ->
  parse_cluster_option option = Raise IndexError.
Proof.
  intros H. unfold parse_cluster_option.
  now rewrite (cluster_option_locals_no_dot option H).
Qed.

(** With a dot, the loop body gets as far as the call of [ClusterOption]
    and ends there. *)
Lemma parse_cluster_option_dot (option : string) :
  Py.contains "." option = true ->
  parse_cluster_option option = Raise (NameError "ClusterOption").
Proof.
  intros H. destruct (cluster_option_locals_dot option H) as (c & n & v & Hl).
  unfold parse_cluster_option. now rewrite Hl.
Qed.

(** An argument without an equals sign gets the value ['True'], and the
    same local variables as the argument followed by [=True]. *)
Lemma cluster_option_locals_default (option : string) :
  Py.contains "." option = true ->
  Py.contains "=" option = false ->
  exists c n,
    cluster_option_locals option = Ret (c, n, "True")
    /\ cluster_option_locals (option +:+ "=True") = Ret (c, n, "True").
Proof.
  intros Hdot Heq.
  destruct (split_present "." option Hdot) as (a & b & rest & Hsp).
  pose proof (split_pieces_absent "=" "." option Heq) as Hpieces.
  rewrite Hsp in Hpieces.
  assert (Hb : Py.contains "=" b = false).
  { inversion Hpieces as [|? ? _ Hp2]; inversion Hp2; assumption. }
  exists a, b. split.
  - unfold cluster_option_locals. rewrite Hsp. simpl.
    rewrite (split_absent "=" option Heq), (split_absent "=" b Hb).
    reflexivity.
  - unfold cluster_option_locals.
    rewrite (split_app_absent "." option "=True" eq_refl), Hsp.
    rewrite (split_app_sep "=" option "True" Heq).
    destruct rest as [|r rest].
    + change (extend_last "=True" [a; b]) with [a; b +:+ "=True"]. simpl.
      rewrite (split_app_sep "=" b "True" Hb). reflexivity.
    + rewrite (extend_last_cons "=True" a (b :: r :: rest)) by discriminate.
      rewrite (extend_last_cons "=True" b (r :: rest)) by discriminate.
      simpl. rewrite (split_absent "=" b Hb). reflexivity.
Qed.

(** C10, at an input where the code departs from it: [-c
    ovirt.no-database]. The loop body computes the value ['True'] for it,
    as it does for [-c ovirt.no-database=True]; but the call of
    [ClusterOption] that follows raises [NameError], the module binding no
    such name. No option is made, [parse_cluster_options] ends with that
    error, and nothing is left for a later coercion to treat. *)
Theorem parse_cluster_option_default_unbuilt :
  cluster_option_locals "ovirt.no-database"
  = Ret ("ovirt", "no-database", "True")
  /\ cluster_option_locals "ovirt.no-database=True"
     = Ret ("ovirt", "no-database", "True")
  /\ Py.mem "ClusterOption" module_globals = false
  /\ parse_cluster_option "ovirt.no-database"
     = Raise (NameError "ClusterOption")
  /\ parse_cluster_options ["ovirt.no-database"]
     = Raise (NameError "ClusterOption")
  /\ parse_cluster_options ["ovirt.no-database=True"]
     = Raise (NameError "ClusterOption").
Proof. repeat split. Qed.

(** C4, as the code has it. For an option given by the user whose value is
    a string, a declared bool option accepts [true], [on], [false] and
    [off] in any letter case and turns them into the boolean; any other
    value ends the run with exit code 1. A declared int option ends the run
    with exit code 1 for every such value, numeric or not: the classes are
    compared and the string is not parsed. A declared string option takes
    the value as it is. *)
Theorem validate_option_from_cli (default cli : ClusterOption) (s : string) :
  value cli = VStr s ->
  opt_type cli = TStr ->
  _validate_option default cli =
    match opt_type default with
    | TBool =>
        if Py.mem (Py.lower s) ["true"; "on"] then Ret (VBool true)
        else if Py.mem (Py.lower s) ["false"; "off"] then Ret (VBool false)
        else Exit 1 ("Invalid value for " +:+ name cli +:+
               ". Accepted values are: 'true', 'false', 'on', 'off'")
    | TInt =>
        Exit 1 ("Invalid option type for " +:+ name cli +:+ ". Expected "
                +:+ "<class 'int'>" +:+ " got " +:+ "<class 'str'>")
    | TStr => Ret (VStr s)
    end.
Proof.
  intros Hv Ht. unfold _validate_option. rewrite Hv, Ht.
  destruct (opt_type default); simpl; try reflexivity.
  destruct (String.eqb (Py.lower s) "true"); [reflexivity|].
  destruct (String.eqb (Py.lower s) "on"); [reflexivity|].
  destruct (String.eqb (Py.lower s) "false"); [reflexivity|].
  destruct (String.eqb (Py.lower s) "off"); reflexivity.
Qed.

Lemma validate_option_from_cli_witness :
  let default := mkClusterOption "no-database" (VBool false) TBool "ovirt" in
  let cli := mkClusterOption "no-database" (VStr "False") TStr "ovirt" in
  value cli = VStr "False"
  /\ opt_type cli = TStr
  /\ _validate_option default cli = Ret (VBool false).
Proof.
  intros default cli. split; [reflexivity|]. split; [reflexivity|].
  exact (validate_option_from_cli default cli "False" eq_refl eq_refl).
Defined.

(** The other value of the scenario: [maybe] is fatal. *)
Example validate_option_maybe :
  _validate_option (mkClusterOption "no-database" (VBool false) TBool "ovirt")
    (mkClusterOption "no-database" (VStr "maybe") TStr "ovirt")
  = Exit 1 ("Invalid value for no-database. "
            +:+ "Accepted values are: 'true', 'false', 'on', 'off'").
Proof. reflexivity. Qed.

(** A numeric value for a declared int option is not parsed: the run ends
    with exit code 1. *)
Lemma validate_option_int_rejects_number :
  let declared := mkClusterOption "count" (VInt 1) TInt "kubernetes" in
  let cli := mkClusterOption "count" (VStr "5") TStr "kubernetes" in
  _validate_option declared cli
  = Exit 1 ("Invalid option type for count. "
            +:+ "Expected <class 'int'> got <class 'str'>")
  /\ _validate_option declared cli <> Ret (VInt 5).
Proof. split; [reflexivity | discriminate]. Qed.

(** ** [verify_cluster_options] (C5) *)

Lemma verify_loop_last (clusters : registry) (opts : list ClusterOption)
    (opt : ClusterOption) :
  verify_loop clusters (opts ++ [opt])
  = Some (scan_clusters opt clusters false, opt).
Proof. unfold verify_loop. now rewrite fold_left_app. Qed.

(** Only the last option given decides: the options before it are never
    tested. *)
Lemma verify_cluster_options_last_only (clusters : registry)
    (opts1 opts2 : list ClusterOption) (opt : ClusterOption) :
  verify_cluster_options clusters (opts1 ++ [opt])
  = verify_cluster_options clusters (opts2 ++ [opt]).
Proof. unfold verify_cluster_options. now rewrite !verify_loop_last. Qed.

(** C5, at an input where the code departs from it: the options [bogus]
    and [no-database] of the profile [ovirt], given in this order, with
    the profile declaring only [no-database]. No declared option is called
    [bogus], yet [verify_cluster_options] returns and the run goes on;
    given alone, the same option ends the run with exit code 1. *)
Theorem verify_cluster_options_misses_unknown :
  let clusters := [("ovirt", ovirt_profile)] in
  let bogus := mkClusterOption "bogus" (VStr "1") TStr "ovirt" in
  let known := mkClusterOption "no-database" (VStr "True") TStr "ovirt" in
  scan_clusters bogus clusters false = false
  /\ scan_clusters known clusters false = true
  /\ verify_cluster_options clusters [bogus; known] = Ret tt
  /\ verify_cluster_options clusters [bogus]
     = Exit 1 "Unknown cluster option provided: ovirt.bogus".
Proof. repeat split. Qed.

(** ** [determine_cluster] (C2) *)

Section Detection.

Variable m : SosNode.

(** The inner loop returns the first matching derived profile among
    [checks], and the base profile when there is none. *)
Lemma layered_find (b : Cluster) (checks : list Cluster) :
  layered m b checks
  = match find (layer_of m b) checks with
    | Some d => set_master m d
    | None => b
    end.
Proof.
  induction checks as [|x rest IH]; simpl; [reflexivity|].
  unfold layer_of at 1.
  destruct (issubclass x b); simpl; [|exact IH].
  destruct (check_enabled x m); simpl; [reflexivity | exact IH].
Qed.

(** The outer loop passes over the profiles that do not match; [checks]
    is then what follows the first one that does. *)
Lemma determine_loop_first (pre : list Cluster) (b : Cluster)
    (post : list Cluster) :
  Forall (fun c => check_enabled c m = false) pre ->
  check_enabled b m = true ->
  determine_loop m (pre ++ b :: post) (pre ++ b :: post)
  = Some (layered m (set_master m b) post).
Proof.
  intros Hpre Hb. induction Hpre as [|x pre Hx _ IH]; simpl.
  - rewrite String.eqb_refl, Hb. reflexivity.
  - rewrite String.eqb_refl, Hx. exact IH.
Qed.

(** Without a matching profile nothing is selected. *)
Lemma determine_loop_none (l : list Cluster) :
  Forall (fun c => check_enabled c m = false) l ->
  determine_loop m l l = None.
Proof.
  intros H. induction H as [|x l Hx _ IH]; simpl; [reflexivity|].
  rewrite String.eqb_refl, Hx. exact IH.
Qed.

(** C2, as the code has it. Let [b] be the first profile, in the order of
    the registry, whose check matches the primary node. If a profile [d]
    whose class derives from that of [b] also matches, the profile selected
    is the first such derived profile in registry order, never [b]; it is
    [d] when [d] is the only one. *)
Theorem determine_cluster_layered (clusters : registry)
    (pre : list Cluster) (b : Cluster) (post : list Cluster) (d : Cluster) :
  values clusters = pre ++ b :: post ->
  NoDup (map class_name (values clusters)) ->
  Forall (fun c => check_enabled c m = false) pre ->
  check_enabled b m = true ->
  In d post -> issubclass d b = true -> check_enabled d m = true ->
  exists d',
    determine_cluster clusters m = Some (set_master m d')
    /\ find (layer_of m b) post = Some d'
    /\ issubclass d' b = true /\ check_enabled d' m = true
    /\ class_name d' <> class_name b
    /\ ((forall x, In x post -> layer_of m b x = true -> x = d) -> d' = d).
Proof.
  intros Hv Hnd Hpre Hb Hin Hsub Hd.
  destruct (find (layer_of m b) post) as [d'|] eqn:Hfind.
  - destruct (find_some _ _ Hfind) as [Hin' Hl].
    unfold layer_of in Hl. apply andb_true_iff in Hl as [Hs' He'].
    exists d'. repeat split; try assumption.
    + unfold determine_cluster. rewrite Hv.
      rewrite (determine_loop_first pre b post Hpre Hb), layered_find.
      change (layer_of m (set_master m b)) with (layer_of m b).
      now rewrite Hfind.
    + rewrite Hv, map_app in Hnd. apply NoDup_app in Hnd as (_ & _ & Hnd).
      simpl in Hnd. apply NoDup_cons in Hnd as [Hnotin _].
      intros Heq. apply Hnotin. rewrite <- Heq.
      apply list_elem_of_In, in_map, Hin'.
    + intros Huniq. apply Huniq; [exact Hin'|].
      unfold layer_of. now rewrite Hs', He'.
  - exfalso. apply (find_none _ _ Hfind d) in Hin.
    unfold layer_of in Hin. now rewrite Hsub, Hd in Hin.
Qed.

End Detection.

Lemma determine_cluster_layered_witness :
  let pacemaker := profile "pacemaker" [] false in
  let ovirt := profile "ovirt" [] true in
  let kubernetes := profile "kubernetes" [] true in
  let rhv := profile "rhv" ["ovirt"] true in
  let clusters := [("pacemaker", pacemaker); ("ovirt", ovirt);
                   ("kubernetes", kubernetes); ("rhv", rhv)] in
  determine_cluster clusters primary0 = Some (set_master primary0 rhv).
Proof.
  intros pacemaker ovirt kubernetes rhv clusters.
  destruct (determine_cluster_layered primary0 clusters
              [pacemaker] ovirt [kubernetes; rhv] rhv)
    as (d' & Hsel & _ & _ & _ & _ & Honly).
  - reflexivity.
  - apply (bool_decide_unpack _). vm_compute. exact I.
  - repeat constructor.
  - reflexivity.
  - right; left; reflexivity.
  - reflexivity.
  - reflexivity.
  - rewrite Hsel. f_equal. f_equal. apply Honly.
    intros x [<-|[<-|[]]]; [discriminate | reflexivity].
Defined.

(** Not every such pair is settled in favour of [d]: a profile matching earlier
    in the registry wins over both [b] and [d], and of two matching
    profiles derived from [b] the earlier one is selected. *)
Lemma determine_cluster_not_every_pair :
  let a := profile "kubernetes" [] true in
  let b := profile "ovirt" [] true in
  let d := profile "rhv" ["ovirt"] true in
  let d2 := profile "rhv_hosted" ["ovirt"] true in
  (issubclass d b = true
   /\ class_name <$> determine_cluster
        [("kubernetes", a); ("ovirt", b); ("rhv", d)] primary0
      = Some "kubernetes")
  /\ (issubclass d2 b = true
      /\ class_name <$> determine_cluster
           [("ovirt", b); ("rhv", d); ("rhv_hosted", d2)] primary0
         = Some "rhv").
Proof. repeat split. Qed.

(** ** [configure_sos_cmd] (C7) *)

Lemma prefix_app (p s : string) : String.prefix p (p +:+ s) = true.
Proof.
  induction p as [|c p IH]; [now destruct s|].
  rewrite app_cons_s. simpl.
  destruct (ascii_dec c c); [exact IH | congruence].
Qed.

Lemma extends_refl (cmd : string) : extends cmd cmd.
Proof. exists "". now rewrite app_nil_r_s. Qed.

Lemma extends_trans (a b c : string) :
  extends a b -> extends b c -> extends a c.
Proof.
  intros [s1 ->] [s2 ->]. exists (s1 +:+ s2). apply app_assoc_s.
Qed.

Lemma extends_add_flag (cond : bool) (flag cmd : string) :
  extends cmd (add_flag cond flag cmd).
Proof.
  unfold add_flag. destruct cond; [now exists flag | apply extends_refl].
Qed.

Lemma extends_add_quoted (quote : string -> string) (x : option string)
    (flag cmd : string) :
  extends cmd (add_quoted quote x flag cmd).
Proof.
  unfold add_quoted. destruct x; [apply extends_add_flag | apply extends_refl].
Qed.

Lemma extends_per_flag_cmd (quote : string -> string) (opts : Options)
    (line : option string) (logged : list (loglevel * string))
    (cmd : string) :
  extends cmd (sos_cmd (per_flag_cmd quote opts line logged cmd)).
Proof.
  unfold per_flag_cmd.
  destruct (negb (opts_log_size opts =? 0)%Z); simpl;
    repeat first
      [ apply extends_refl
      | eapply extends_trans;
        [| first [apply extends_add_flag | apply extends_add_quoted]] ].
Qed.

(** The flag-by-flag path reads neither the override nor the log. *)
Lemma per_flag_cmd_line (quote : string -> string) (opts : Options)
    (line line' line'' : option string)
    (logged logged' : list (loglevel * string)) (cmd : string) :
  let st := per_flag_cmd quote opts line logged cmd in
  let st' := per_flag_cmd quote (set_sos_opt_line line'' opts) line' logged'
               cmd in
  sos_cmd st = sos_cmd st' /\ ended st = ended st'.
Proof.
  unfold per_flag_cmd. simpl.
  destruct (negb (opts_log_size opts =? 0)%Z); simpl; auto.
Qed.

(** C7. The command always starts with [sosreport --batch]. An override
    free of the characters ampersand, bar, angle brackets and semicolon is
    appended shell-quoted and nothing else is. An override that contains
    one of them is dropped with a warning, and the command is built flag by
    flag as if no override had been given. *)
Theorem configure_sos_cmd_override (quote : string -> string)
    (opts : Options) :
  let st := configure_sos_cmd quote opts in
  String.prefix "sosreport --batch" (sos_cmd st) = true
  /\ forall line,
       opts_sos_opt_line opts = Some line -> Py.truthy line = true ->
       if Py.contains_any ["&"; "|"; ">"; "<"; ";"]%char line
       then
         let normal := configure_sos_cmd quote (set_sos_opt_line None opts) in
         sos_opt_line st = None
         /\ In (WARN, "Possible shell script found in provided sos command. "
                      +:+ "Ignoring --sos-opt-line entirely.") (logged st)
         /\ sos_cmd st = sos_cmd normal
         /\ ended st = ended normal
       else
         sos_cmd st = "sosreport --batch " +:+ quote line
         /\ sos_opt_line st = Some line
         /\ ended st = Ret true.
Proof.
  split.
  - assert (H : extends "sosreport --batch"
                  (sos_cmd (configure_sos_cmd quote opts))).
    { unfold configure_sos_cmd.
      destruct (opts_sos_opt_line opts) as [line|];
        [destruct (Py.truthy line);
           [destruct (Py.contains_any filt line)|]|];
        try apply extends_per_flag_cmd.
      simpl. now exists (" " +:+ quote line). }
    destruct H as [sfx ->]. apply prefix_app.
  - intros line Hline Htruthy. unfold configure_sos_cmd.
    rewrite Hline, Htruthy. change ["&"; "|"; ">"; "<"; ";"]%char with filt.
    destruct (Py.contains_any filt line).
    + simpl. split; [|split].
      * unfold per_flag_cmd.
        now destruct (negb (opts_log_size opts =? 0)%Z).
      * unfold per_flag_cmd.
        destruct (negb (opts_log_size opts =? 0)%Z); simpl; auto.
      * apply per_flag_cmd_line.
    + simpl. auto.
Qed.

Lemma configure_sos_cmd_override_witness :
  let quote := fun s => "'" +:+ s +:+ "'" in
  let opts :=
    mkOptions [] "" false None (Some "0123") (Some "-o kernel; reboot") true
              false false 0 None (Some "auto") None in
  let st := configure_sos_cmd quote opts in
  String.prefix "sosreport --batch" (sos_cmd st) = true
  /\ sos_opt_line st = None
  /\ sos_cmd st = sos_cmd (configure_sos_cmd quote (set_sos_opt_line None opts)).
Proof.
  intros quote opts st.
  destruct (configure_sos_cmd_override quote opts) as [Hpre Hline].
  specialize (Hline "-o kernel; reboot" eq_refl eq_refl).
  cbv beta iota zeta in Hline.
  change (Py.contains_any ["&"; "|"; ">"; "<"; ";"]%char "-o kernel; reboot")
    with true in Hline.
  destruct Hline as (Hnone & _ & Hcmd & _).
  split; [exact Hpre | split; [exact Hnone | exact Hcmd]].
Defined.

(** The three cases on sample options. *)
Example configure_sos_cmd_samples :
  let quote := fun s => "'" +:+ s +:+ "'" in
  let opts line :=
    mkOptions [] "" false None (Some "0123") line true false false 0 None
              (Some "auto") None in
  sos_cmd (configure_sos_cmd quote (opts (Some "-o kernel")))
  = "sosreport --batch '-o kernel'"
  /\ sos_cmd (configure_sos_cmd quote (opts (Some "-o kernel; reboot")))
     = "sosreport --batch --case-id='0123' --alloptions -c 'auto'"
  /\ sos_cmd (configure_sos_cmd quote (opts None))
     = "sosreport --batch --case-id='0123' --alloptions -c 'auto'".
Proof. repeat split. Qed.

(** ** The archive (C9, C3) *)

Section ArchiveFacts.

Variable now : datetime.
Variable rng : nat -> nat.

(** C9, where the code departs from it: the path is the temp directory's
    name followed at once by the archive name, with no separator in
    between, so it is never the path [<tmpdir>/<archive-root-name>.tar.gz]. *)
Theorem archive_path_lacks_separator (tmpdir : string) (opts : Options) :
  let '(arc_name, path) := _get_archive_path now rng tmpdir opts in
  arc_name = _get_archive_name now rng opts
  /\ path = tmpdir +:+ arc_name +:+ ".tar.gz"
  /\ path <> tmpdir +:+ "/" +:+ arc_name +:+ ".tar.gz".
Proof.
  unfold _get_archive_path. split; [reflexivity | split; [reflexivity|]].
  intros H. apply (f_equal String.length) in H.
  rewrite !length_app_s in H. simpl in H. lia.
Qed.

End ArchiveFacts.

(** With the temp directory [/var/tmp/sos.k3x9a1] the archive lands beside
    the directory, not inside it. *)
Example archive_path_sample :
  snd (_get_archive_path (mkDate 2020 3 7) (fun n => n) "/var/tmp/sos.k3x9a1"
         (mkOptions [] "" false None None None false false false 0 None None
                    None))
  = "/var/tmp/sos.k3x9a1sos-collector-2020-03-07-abcde.tar.gz".
Proof. reflexivity. Qed.

Section CollectFacts.

Variable now : datetime.
Variable rng : nat -> nat.
Variable env : tar_env.

(** C3, as the code has it. With no report retrieved the run ends with
    exit code 1 and no archive. With at least one, the archive is written
    when the tar file can be opened and both log files added, whatever
    happens to the single report files; otherwise the run ends with exit
    code 2 and no archive. *)
Theorem collect_finish_archive (r : run) :
  let path := snd (_get_archive_path now rng (tmpdir r) (run_opts r)) in
  let writable := tar_open_ok env path && tar_add_ok env (sos_log_file r)
                  && tar_add_ok env (sos_ui_log_file r) in
  match collect_finish now rng env r with
  | Ret a => (0 < retrieved r)%nat /\ writable = true /\ archive_path a = path
  | Exit code _ =>
      (retrieved r = 0%nat /\ code = 1%Z)
      \/ ((0 < retrieved r)%nat /\ writable = false /\ code = 2%Z)
  | Raise _ => False
  end.
Proof.
  unfold collect_finish, create_cluster_archive, create_sos_archive.
  unfold _get_archive_path. simpl.
  destruct (0 <? retrieved r)%nat eqn:Hr.
  - apply Nat.ltb_lt in Hr.
    destruct (tar_open_ok env _); simpl; [|right; auto].
    destruct (fold_left _ (client_list r) ([], [])) as [added failed].
    destruct (tar_add_ok env (sos_log_file r)); simpl; [|right; auto].
    destruct (tar_add_ok env (sos_ui_log_file r)); simpl; [|right; auto].
    auto.
  - apply Nat.ltb_ge in Hr. left. split; [lia | reflexivity].
Qed.

End CollectFacts.

(** One report was retrieved, the tar file cannot be opened: no archive,
    exit code 2. *)
Lemma collect_finish_retrieved_no_archive :
  let env := mkTarEnv (fun _ => false) (fun _ => true) in
  let node := mkSosNode "node1" "node1" true ["sosreport-node1.tar.xz"] in
  let r := mkRun (mkOptions [] "" false None None None false false false 0
                            None None None)
                 "/var/tmp/sos.k3x9a1" [node] 1 "sos.log" "ui.log" in
  retrieved r = 1%nat
  /\ collect_finish (mkDate 2020 3 7) (fun n => n) env r
     = Exit 2 "Could not create archive".
Proof. split; reflexivity. Qed.

(** ** Node reconciliation (C6) *)

Lemma mem_In (s : string) (l : list string) : Py.mem s l = true <-> In s l.
Proof.
  unfold Py.mem. rewrite existsb_exists. split.
  - intros (x & Hin & Heq). apply String.eqb_eq in Heq. now subst.
  - intros Hin. exists s. split; [exact Hin | apply String.eqb_refl].
Qed.

Lemma remove_In (x y : string) (l : list string) :
  In x (Py.remove y l) -> In x l.
Proof.
  induction l as [|z l IH]; simpl; [auto|].
  destruct (String.eqb y z); simpl; tauto.
Qed.

Lemma remove_NoDup (y : string) (l : list string) :
  NoDup l -> NoDup (Py.remove y l).
Proof.
  induction 1 as [|z l Hz Hl IH]; simpl; [constructor|].
  destruct (String.eqb y z); [exact Hl|].
  constructor; [|exact IH].
  rewrite list_elem_of_In in *. intros H. apply Hz. eapply remove_In, H.
Qed.

(** In a list without duplicates [remove] leaves no occurrence behind. *)
Lemma remove_NoDup_gone (y : string) (l : list string) :
  NoDup l -> ~ In y (Py.remove y l).
Proof.
  induction 1 as [|z l Hz Hl IH]; simpl; [auto|].
  destruct (String.eqb_spec y z) as [->|Hne].
  - now rewrite <- list_elem_of_In.
  - simpl. intros [H|H]; [congruence | auto].
Qed.

(** The removing loop only ever takes elements away. *)
Lemma iter_remove_In (p : string -> bool) (fuel i : nat) (l : list string)
    (x : string) :
  In x (iter_remove p fuel i l) -> In x l.
Proof.
  revert i l. induction fuel as [|fuel IH]; intros i l; simpl; [auto|].
  destruct (l !! i) as [n|]; [|auto].
  intros H. apply IH in H. destruct (p n); [eapply remove_In, H | exact H].
Qed.

Lemma remove_length (y : string) (l : list string) :
  length (Py.remove y l) <= length l.
Proof.
  induction l as [|z l IH]; simpl; [lia|].
  destruct (String.eqb y z); simpl; lia.
Qed.

(** The loop has ended by the time the fuel given by [for_remove] is used
    up: more fuel changes nothing. *)
Lemma iter_remove_fuel (p : string -> bool) (fuel extra i : nat)
    (l : list string) :
  length l <= i + fuel ->
  iter_remove p (fuel + extra) i l = iter_remove p fuel i l.
Proof.
  revert i l. induction fuel as [|fuel IH]; intros i l Hlen; simpl.
  - destruct extra; simpl; [reflexivity|].
    now rewrite (lookup_ge_None_2 l i) by lia.
  - destruct (l !! i) as [n|]; [|reflexivity].
    apply IH. destruct (p n); [pose proof (remove_length n l)|]; lia.
Qed.

Lemma for_remove_total (p : string -> bool) (l : list string) (extra : nat) :
  iter_remove p (length l + extra) 0 l = for_remove p l.
Proof. apply iter_remove_fuel. lia. Qed.

Lemma dedup_nonempty_In (l : list string) (x : string) :
  In x (dedup_nonempty l) <-> In x l /\ x <> "".
Proof.
  unfold dedup_nonempty.
  rewrite <- list_elem_of_In, elem_of_elements, elem_of_list_to_set,
    list_elem_of_filter, list_elem_of_In.
  destruct x; simpl; intuition congruence.
Qed.

Lemma dedup_nonempty_NoDup (l : list string) : NoDup (dedup_nonempty l).
Proof. unfold dedup_nonempty. apply NoDup_elements. Qed.

(** [reduce_node_list] adds nothing. *)
Lemma reduce_node_list_In (self : Self) (l : list string) (x : string) :
  In x (reduce_node_list self l) -> In x l.
Proof.
  unfold reduce_node_list. intros H.
  apply dedup_nonempty_In in H as [H _].
  assert (Hm : forall l', In x (match self_master self with
            | Some m => for_remove (fun n => String.eqb n (hostname m)
                 || String.eqb n (opts_master (self_opts self))) l'
            | None => l' end) -> In x l').
  { intros l'. destruct (self_master self); [apply iter_remove_In | auto]. }
  apply Hm in H.
  assert (Hf : forall ips l', In x (fold_left (fun nl i =>
            if Py.mem i nl then Py.remove i nl else nl) ips l') -> In x l').
  { induction ips as [|i ips IH]; simpl; [auto|]. intros l' Hx.
    apply IH in Hx. destruct (Py.mem i l'); [eapply remove_In, Hx | exact Hx]. }
  apply Hf in H.
  destruct (_ && _); [eapply remove_In, H | exact H].
Qed.

(** The addresses are taken out of a list without duplicates. *)
Lemma remove_ips_gone (ips : list string) (l : list string) (i : string) :
  NoDup l -> (In i ips \/ ~ In i l) ->
  let l' := fold_left (fun nl i => if Py.mem i nl then Py.remove i nl else nl)
                      ips l in
  NoDup l' /\ ~ In i l'.
Proof.
  revert l. induction ips as [|j ips IH]; simpl; intros l Hnd Hi.
  - split; [exact Hnd | tauto].
  - destruct (Py.mem j l) eqn:Hj.
    + apply IH; [now apply remove_NoDup|].
      destruct Hi as [[->|Hi]|Hi]; auto.
      * right. now apply remove_NoDup_gone.
      * right. intros H. apply Hi. eapply remove_In, H.
    + apply IH; [exact Hnd|].
      destruct Hi as [[->|Hi]|Hi]; auto.
      right. intros H. apply mem_In in H. congruence.
Qed.

Section GetNodesFacts.

Variable fnmatch_match : string -> string -> bool.

(** C6, as the code has it. The reconciled node list has no duplicates
    and no empty string, and every entry comes from the list gathered
    before the reduction. When that list is free of duplicates, the result
    contains none of the driver's addresses and, if [no_local] is set, not
    the driver's host name as [gethostname] gives it. *)
Theorem get_nodes_reconciled (self : Self) (gathered : list string) :
  get_nodes_gather fnmatch_match self = Ret gathered ->
  let node_list := reduce_node_list self gathered in
  (exists hostlen, get_nodes fnmatch_match self = Ret (node_list, hostlen))
  /\ NoDup node_list
  /\ ~ In "" node_list
  /\ (forall n, In n node_list -> In n gathered)
  /\ (NoDup gathered ->
      (opts_no_local (self_opts self) = true ->
       ~ In (self_hostname self) node_list)
      /\ forall i, In i (self_ip_addrs self) -> ~ In i node_list).
Proof.
  intros Hg node_list. split; [|split; [|split; [|split]]].
  - unfold get_nodes. rewrite Hg. simpl. eauto.
  - apply dedup_nonempty_NoDup.
  - intros H. apply dedup_nonempty_In in H as [_ H]. congruence.
  - intros n. apply reduce_node_list_In.
  - intros Hnd.
    set (l1 := if Py.mem (self_hostname self) gathered
                  && opts_no_local (self_opts self)
               then Py.remove (self_hostname self) gathered else gathered).
    assert (Hnd1 : NoDup l1).
    { subst l1. destruct (_ && _); [now apply remove_NoDup | exact Hnd]. }
    assert (Hsub : forall x,
               In x node_list ->
               In x (fold_left (fun nl i => if Py.mem i nl
                                            then Py.remove i nl else nl)
                               (self_ip_addrs self) l1)).
    { intros x H. subst node_list. unfold reduce_node_list in H. fold l1 in H.
      apply dedup_nonempty_In in H as [H _].
      destruct (self_master self); [eapply iter_remove_In, H | exact H]. }
    split.
    + intros Hnl Hin. apply Hsub in Hin. revert Hin.
      apply remove_ips_gone; [exact Hnd1|]. right. subst l1. rewrite Hnl.
      destruct (Py.mem (self_hostname self) gathered) eqn:Hm; simpl.
      * now apply remove_NoDup_gone.
      * intros H. apply mem_In in H. congruence.
    + intros i Hi Hin. apply Hsub in Hin. revert Hin.
      apply remove_ips_gone; [exact Hnd1 | now left].
Qed.

End GetNodesFacts.

Lemma get_nodes_reconciled_witness :
  let nodes := ["node1"; "driver.example.com"; "192.168.1.10"; "node2"] in
  let self := sample_self nodes in
  get_nodes_gather (fun _ _ => false) self = Ret nodes
  /\ NoDup (reduce_node_list self nodes)
  /\ ~ In "" (reduce_node_list self nodes)
  /\ ~ In "driver.example.com" (reduce_node_list self nodes)
  /\ ~ In "192.168.1.10" (reduce_node_list self nodes).
Proof.
  intros nodes self. split; [reflexivity|].
  destruct (get_nodes_reconciled (fun _ _ => false) self nodes eq_refl)
    as (_ & Hnd & Hne & _ & Hlocal).
  destruct Hlocal as [Hhost Hips].
  - apply (bool_decide_unpack _). vm_compute. exact I.
  - split; [exact Hnd | split; [exact Hne | split]].
    + apply Hhost. reflexivity.
    + apply Hips. left. reflexivity.
Defined.

(** The driver's short host name is not looked for: with [--no-local] and
    a remote primary, the entry [driver] of the driver
    [driver.example.com] stays in the list. *)
Lemma get_nodes_keeps_short_hostname :
  let self := sample_self ["driver"; "node1"] in
  opts_no_local (self_opts self) = true
  /\ Py.split "." (self_hostname self) !! 0%nat = Some "driver"
  /\ exists node_list hostlen,
       get_nodes (fun _ _ => false) self = Ret (node_list, hostlen)
       /\ In "driver" node_list.
Proof.
  split; [reflexivity | split; [reflexivity|]].
  eexists _, _. split; [vm_compute; reflexivity|].
  simpl. tauto.
Qed.

(** The loop that takes the primary out skips the entry after each one it
    removes: of the primary's host name and its address, listed one after
    the other, the second stays. *)
Example get_nodes_keeps_primary :
  let self := sample_self ["primary.example.com"; "10.0.0.5"; "node2"] in
  opts_master (self_opts self) = "10.0.0.5"
  /\ exists node_list hostlen,
       get_nodes (fun _ _ => false) self = Ret (node_list, hostlen)
       /\ In "10.0.0.5" node_list.
Proof.
  split; [reflexivity|].
  eexists _, _. split; [vm_compute; reflexivity|].
  simpl. tauto.
Qed.

(** ** [parse_node_strings] (C1) *)

(** Escaped text is a pattern of literals. *)
Lemma literal_pattern_escape (s : string) :
  Re.literal_pattern (Re.escape s) = true.
Proof.
  induction s as [|c s IH]; [reflexivity|].
  simpl. destruct (Re.special c) eqn:Hc.
  - simpl. now rewrite Hc, IH.
  - change (Re.literal_pattern (String c (Re.escape s)))
      with (if Ascii.eqb c "\" then
              match Re.escape s with
              | String d p'' => Re.special d && Re.literal_pattern p''
              | EmptyString => false
              end
            else negb (Re.special c) && Re.literal_pattern (Re.escape s)).
    destruct (Ascii.eqb_spec c "\") as [->|_]; [discriminate|].
    now rewrite Hc, IH.
Qed.

Lemma substring_prefix (b c : string) :
  String.substring 0 (String.length b) (b +:+ c) = b.
Proof.
  induction b as [|x b IH].
  - now destruct c.
  - rewrite app_cons_s. simpl. now rewrite IH.
Qed.

Lemma substring_middle (a b c : string) :
  String.substring (String.length a) (String.length b) (a +:+ (b +:+ c)) = b.
Proof.
  induction a as [|x a IH].
  - exact (substring_prefix b c).
  - rewrite app_cons_s. simpl. exact IH.
Qed.

Lemma slice_middle (a b c : string) :
  slice (a +:+ (b +:+ c)) (String.length a)
        (String.length a + String.length b) = b.
Proof.
  unfold slice.
  replace (String.length a + String.length b - String.length a)%nat
    with (String.length b) by lia.
  apply substring_middle.
Qed.

Lemma seg_inv_lstrip (reg cur : string) :
  seg_inv reg cur -> Py.lstrip "," reg = cur.
Proof.
  intros [[-> | ->] Hhead].
  - destruct cur as [|x cur]; [reflexivity|]. simpl.
    now destruct (Ascii.eqb_spec x ",").
  - simpl. destruct cur as [|x cur]; [reflexivity|]. simpl.
    now destruct (Ascii.eqb_spec x ",").
Qed.

Lemma seg_inv_splits (reg cur : string) :
  seg_inv reg cur -> splits_regex reg = splits_regex cur.
Proof. intros [[-> | ->] _]; reflexivity. Qed.

Lemma splits_regex_nonempty (cur : string) :
  splits_regex cur = true -> cur <> "".
Proof. intros H ->. discriminate. Qed.

(** The token grows by one character that does not end it. *)
Lemma seg_inv_snoc (reg cur : string) (c : ascii) :
  seg_inv reg cur ->
  (c = ","%char -> splits_regex cur = true) ->
  seg_inv (reg +:+ String c "") (cur +:+ String c "").
Proof.
  intros [Hreg Hhead] Hc. split.
  - destruct Hreg as [-> | ->]; [now left | now right].
  - destruct cur as [|x cur]; [|exact Hhead].
    rewrite app_nil_l_s. intros ->. specialize (Hc eq_refl). discriminate.
Qed.

#[local] Arguments slice : simpl never.
#[local] Arguments scan_step : simpl never.

Section NodeStringFacts.

Variable re_compile : string -> bool.

(** Escaped text always compiles: the [except re.error] branch is never
    taken. *)
Hypothesis re_compile_escape : forall s, re_compile (Re.escape s) = true.

(** One step of the scan, at the index that follows [done +:+ reg]. *)
Lemma scan_step_at (node done reg rest cur : string) (p : nat)
    (out : list string) :
  node = done +:+ (reg +:+ rest) ->
  seg_inv reg cur ->
  let idx := (String.length done + String.length reg)%nat in
  scan_step re_compile node (mkScan (String.length done) p out) idx
  = if splits_regex cur then mkScan (String.length done) idx out
    else mkScan idx idx (out ++ [cur]).
Proof.
  intros Hnode Hinv idx. unfold scan_step, idx.
  cbn [start nodes pos]. rewrite Hnode, slice_middle, re_compile_escape.
  rewrite (seg_inv_splits _ _ Hinv), (seg_inv_lstrip _ _ Hinv).
  reflexivity.
Qed.

(** The scan of the rest of a node string, from the state reached after
    [done +:+ reg]. *)
Lemma scan_rest (rest done reg cur : string) (p : nat) (out : list string)
    (node : string) :
  node = done +:+ (reg +:+ rest) ->
  seg_inv reg cur ->
  let st := fold_left (scan_step re_compile node)
              (comma_indices (String.length done + String.length reg) rest
               ++ [String.length node])
              (mkScan (String.length done) p out) in
  pos st = String.length node /\ nodes st = out ++ code_tokens cur rest.
Proof.
  revert done reg cur p out.
  induction rest as [|c rest IH]; intros done reg cur p out Hnode Hinv.
  - assert (Hlen : String.length node
                   = (String.length done + String.length reg)%nat).
    { rewrite Hnode, app_nil_r_s. apply length_app_s. }
    cbn [comma_indices app fold_left code_tokens].
    rewrite Hlen, (scan_step_at node done reg "" cur p out Hnode Hinv).
    destruct (splits_regex cur); cbn [pos nodes]; [|auto].
    now rewrite app_nil_r.
  - assert (Hnode' : node = done +:+ ((reg +:+ String c "") +:+ rest)).
    { rewrite Hnode. f_equal. now rewrite app_assoc_s. }
    assert (Hidx : S (String.length done + String.length reg)
                   = (String.length done
                      + String.length (reg +:+ String c ""))%nat).
    { rewrite length_app_s. simpl. lia. }
    cbn [comma_indices code_tokens].
    destruct (Ascii.eqb_spec c ",") as [->|Hc].
    + cbn [app fold_left andb].
      rewrite (scan_step_at node done reg _ cur p out Hnode Hinv).
      destruct (splits_regex cur) eqn:Hs; cbn [negb].
      * rewrite Hidx. apply (IH done); [exact Hnode'|].
        apply seg_inv_snoc; auto.
      * specialize (IH (done +:+ reg) (String "," "") ""
                       (String.length done + String.length reg)%nat
                       (out ++ [cur])).
        rewrite length_app_s in IH. simpl in IH.
        replace (String.length done + String.length reg + 1)%nat
          with (S (String.length done + String.length reg)) in IH by lia.
        destruct IH as [Hp Hn].
        { rewrite Hnode, app_assoc_s. reflexivity. }
        { split; [now right | exact I]. }
        split; [exact Hp|]. rewrite Hn, <- app_assoc. reflexivity.
    + cbn [andb]. rewrite Hidx. apply (IH done); [exact Hnode'|].
      apply seg_inv_snoc; [exact Hinv | congruence].
Qed.

(** One node string adds the tokens [code_tokens] reads off it. *)
Lemma scan_node_tokens (out : list string) (node : string) :
  scan_node re_compile out node = out ++ code_tokens "" node.
Proof.
  unfold scan_node.
  destruct (scan_rest node "" "" "" 0 out node eq_refl) as [Hp Hn].
  { split; [now left | exact I]. }
  simpl in Hp, Hn. rewrite Hp, Hn, Nat.eqb_refl. reflexivity.
Qed.

Lemma parse_node_strings_tokens (opts_nodes : list string) :
  parse_node_strings re_compile opts_nodes
  = flat_map (code_tokens "") opts_nodes.
Proof.
  unfold parse_node_strings.
  assert (H : forall l out, fold_left (scan_node re_compile) l out
                            = out ++ flat_map (code_tokens "") l).
  { induction l as [|n l IH]; intros out; simpl.
    - now rewrite app_nil_r.
    - rewrite IH, scan_node_tokens, <- app_assoc. reflexivity. }
  destruct opts_nodes as [|n l]; [reflexivity|]. apply (H (n :: l) []).
Qed.

End NodeStringFacts.

Lemma rule_tokens_nonempty (cur s : string) : rule_tokens cur s <> [].
Proof.
  revert cur. induction s as [|c s IH]; intros cur; simpl; [discriminate|].
  destruct (_ && _); [discriminate | apply IH].
Qed.

(** The rule loses nothing: the tokens joined by commas are the text. *)
Lemma rule_tokens_concat (cur s : string) :
  String.concat "," (rule_tokens cur s) = cur +:+ s.
Proof.
  revert cur. induction s as [|c s IH]; intros cur.
  - simpl. now rewrite app_nil_r_s.
  - cbn [rule_tokens]. destruct (Ascii.eqb_spec c ",") as [->|Hc].
    + destruct (negb (splits_regex cur)); cbn [andb].
      * pose proof (rule_tokens_nonempty "" s) as Hne.
        specialize (IH ""). cbn [String.concat].
        destruct (rule_tokens "" s) as [|t ts]; [congruence|].
        rewrite IH. reflexivity.
      * rewrite IH, app_assoc_s. reflexivity.
    + cbn [andb]. rewrite IH, app_assoc_s. reflexivity.
Qed.

(** The code follows the rule up to the last token, which it keeps only
    when the test lets it through. *)
Lemma code_tokens_rule (cur s : string) :
  splits_regex (List.last (rule_tokens cur s) "") = false ->
  code_tokens cur s = rule_tokens cur s.
Proof.
  revert cur. induction s as [|c s IH]; intros cur; simpl.
  - now intros ->.
  - destruct (_ && _); [|apply IH].
    pose proof (rule_tokens_nonempty "" s) as Hne.
    destruct (rule_tokens "" s) as [|t ts] eqn:E; [congruence|].
    intros H. f_equal. rewrite <- E. apply IH. now rewrite E.
Qed.

(** The rule the code follows. Scanning a node string from the left, a
    comma is a separator exactly when the text since the previous separator
    does not contain an opening bracket without a closing one; otherwise
    the comma stays in the token. The compile test is made on escaped text
    and lets everything through. This describes every list of node strings
    in which the text after the last separator passes that test as well. *)
Theorem parse_node_strings_rule (re_compile : string -> bool)
    (opts_nodes : list string) :
  (forall s, re_compile (Re.escape s) = true) ->
  Forall (fun node => splits_regex (last_token node) = false) opts_nodes ->
  parse_node_strings re_compile opts_nodes
  = flat_map (rule_tokens "") opts_nodes.
Proof.
  intros Hre Hlast. rewrite (parse_node_strings_tokens re_compile Hre).
  induction Hlast as [|node l Hnode _ IH]; simpl; [reflexivity|].
  now rewrite IH, (code_tokens_rule "" node Hnode).
Qed.

Lemma parse_node_strings_rule_witness :
  (forall s, Re.literal_pattern (Re.escape s) = true)
  /\ Forall (fun node => splits_regex (last_token node) = false)
            ["web-[0-3],db-[0-1]"]
  /\ parse_node_strings Re.literal_pattern ["web-[0-3],db-[0-1]"]
     = ["web-[0-3]"; "db-[0-1]"].
Proof.
  split; [exact literal_pattern_escape|].
  split; [repeat constructor|].
  rewrite (parse_node_strings_rule Re.literal_pattern ["web-[0-3],db-[0-1]"]
             literal_pattern_escape).
  - reflexivity.
  - repeat constructor.
Defined.

(** Without [--nodes] there is nothing to tokenize. *)
Example parse_node_strings_empty (re_compile : string -> bool) :
  parse_node_strings re_compile [] = [].
Proof. reflexivity. Qed.

(** C1, at an input where the code departs from it:
    [--nodes='[a]b[c,d]']. The comma lies inside the class [[c,d]], and
    the text before it, [[a]b[c], has an opening bracket that is not
    closed; yet the comma is taken for a separator and the class is cut in
    two. The test made at a comma looks for any closing bracket in the text
    since the last separator, not for balance, and the compile test, made
    on escaped text, lets everything through. *)
Theorem parse_node_strings_splits_class (re_compile : string -> bool) :
  (forall s, re_compile (Re.escape s) = true) ->
  parse_node_strings re_compile ["[a]b[c,d]"] = ["[a]b[c"; "d]"]
  /\ balanced_brackets "[a]b[c" = false
  /\ balanced_brackets "[a]b[c,d]" = true.
Proof.
  intros Hre. rewrite (parse_node_strings_tokens re_compile Hre).
  repeat split.
Qed.

Lemma parse_node_strings_splits_class_witness :
  (forall s, Re.literal_pattern (Re.escape s) = true)
  /\ parse_node_strings Re.literal_pattern ["[a]b[c,d]"] = ["[a]b[c"; "d]"].
Proof.
  split; [exact literal_pattern_escape|].
  exact (proj1 (parse_node_strings_splits_class Re.literal_pattern
                  literal_pattern_escape)).
Defined.

(** A last token with an opening bracket and no closing one is dropped
    altogether: the statement after the loop that would add the rest of
    the string never runs, since [pos] always ends as [len(node)]. *)
Example parse_node_strings_drops_tail :
  parse_node_strings Re.literal_pattern ["node1,web-[0"] = ["node1"]
  /\ parse_node_strings Re.literal_pattern ["[a,b"] = [].
Proof. split; reflexivity. Qed.

(** ** The archive name (C8) *)

Lemma all_chars_app (p : ascii -> bool) (a b : string) :
  all_chars p (a +:+ b) = all_chars p a && all_chars p b.
Proof.
  induction a as [|c a IH]; [reflexivity|].
  rewrite app_cons_s. simpl. now rewrite IH, andb_assoc.
Qed.

(** A match stays within the characters of its pattern. *)
Lemma Matches_within (p : ascii -> bool) (r : regex) (s : string) :
  Matches r s -> regex_within p r -> all_chars p s = true.
Proof.
  induction 1 as [s | q c Hq | r1 r2 s1 s2 _ IH1 _ IH2 | r | r s _ IH
                 | r s _ IH | r s1 s2 _ IH1 _ IH2 | r
                 | n r s1 s2 _ IH1 _ IH2]; simpl; intros Hw;
    rewrite ?all_chars_app; auto.
  - now rewrite (Hw c Hq).
  - destruct Hw. now rewrite IH1, IH2.
  - now rewrite IH1, IH2.
  - now rewrite IH1, IH2.
Qed.

Lemma is_digit_word (c : ascii) : is_digit c = true -> is_word c = true.
Proof. unfold is_word. intros ->. now rewrite !orb_true_r. Qed.

Lemma is_lower_word (c : ascii) : is_lower c = true -> is_word c = true.
Proof. unfold is_word. intros ->. now rewrite !orb_true_r. Qed.

Lemma archive_re_within : regex_within is_word archive_re.
Proof.
  simpl. repeat split; auto using is_digit_word, is_lower_word.
Qed.

(** One or more characters of a class. *)
Lemma Matches_plus_class (p : ascii -> bool) (s : string) :
  s <> "" -> all_chars p s = true -> Matches (Plus (Class p)) s.
Proof.
  induction s as [|c s IH]; [congruence|]. intros _ H. simpl in H.
  apply andb_true_iff in H as [Hc Hs].
  destruct s as [|d s].
  - apply MPlusOne, MClass, Hc.
  - change (String c (String d s)) with (String c "" +:+ String d s).
    apply MPlusMore; [apply MClass, Hc | apply IH; [discriminate | exact Hs]].
Qed.

Lemma Matches_dash_part (x : option string) :
  word_only x = true ->
  Matches (Opt (Cat (Lit "-") (Plus (Class is_word)))) (dash_part x).
Proof.
  destruct x as [s|]; simpl; [|intros _; apply MOptNone].
  intros H. destruct s as [|c s]; simpl; [apply MOptNone|].
  apply MOptSome, MCat; [apply MLit|].
  apply Matches_plus_class; [discriminate | exact H].
Qed.

Lemma digit_is_digit (n : nat) : is_digit (digit n) = true.
Proof.
  unfold digit. pose proof (Nat.mod_upper_bound n 10) as H.
  destruct (n mod 10) as [|[|[|[|[|[|[|[|[|[|k]]]]]]]]]];
    try reflexivity. lia.
Qed.

Lemma random_choice_lower (r : nat) : is_lower (random_choice r) = true.
Proof.
  unfold random_choice.
  pose proof (Nat.mod_upper_bound r (String.length ascii_lowercase)) as H.
  change (String.length ascii_lowercase) with 26%nat in *.
  destruct (r mod 26) as [|k]; [reflexivity|].
  do 25 (destruct k as [|k]; [reflexivity|]). lia.
Qed.

Lemma Matches_two_digits (n : nat) :
  Matches (Rep 2 (Class is_digit)) (two_digits n).
Proof.
  unfold two_digits.
  change (String (digit (n / 10)) (String (digit n) ""))
    with (String (digit (n / 10)) "" +:+ (String (digit n) "" +:+ "")).
  repeat (apply MRepS; [apply MClass, digit_is_digit|]). apply MRepO.
Qed.

Lemma Matches_fmt_year (y : nat) :
  (1000 <= y)%nat -> Matches (Rep 4 (Class is_digit)) (fmt_year y).
Proof.
  intros Hy. unfold fmt_year.
  rewrite (proj2 (Nat.leb_le 1000 y)), (proj2 (Nat.leb_le 100 y)),
    (proj2 (Nat.leb_le 10 y)) by lia.
  rewrite <- (app_nil_r_s (String (digit y) "")).
  repeat (apply MRepS; [apply MClass, digit_is_digit|]). apply MRepO.
Qed.

Section ArchiveName.

Variable now : datetime.
Variable rng : nat -> nat.

Lemma Matches_rand5 : Matches (Rep 5 (Class is_lower)) (rand5 rng).
Proof.
  unfold rand5. cbn [seq map string_of_list_ascii].
  change (String ?a (String ?b (String ?c (String ?d (String ?e "")))))
    with (String a "" +:+ (String b "" +:+ (String c "" +:+
           (String d "" +:+ (String e "" +:+ ""))))).
  repeat (apply MRepS; [apply MClass, random_choice_lower|]). apply MRepO.
Qed.

(** The shape of the name, for any label and case id. *)
Lemma archive_name_form (opts : Options) :
  _get_archive_name now rng opts
  = ("sos-collector" +:+ dash_part (opts_label opts)
     +:+ dash_part (opts_case_id opts))
    +:+ "-" +:+ strftime_ymd now +:+ "-" +:+ rand5 rng.
Proof.
  unfold _get_archive_name, dash_part. fold (rand5 rng).
  destruct (opts_label opts) as [l|], (opts_case_id opts) as [c|];
    repeat match goal with |- context [Py.truthy ?s] =>
             destruct (Py.truthy s) end;
    rewrite ?app_assoc_s, ?app_nil_l_s, ?app_nil_r_s; reflexivity.
Qed.

(** C8, as the code has it. The name is always [sos-collector], then the
    label and the case id, each after a dash, when they are given, then the
    date and five lowercase letters. It matches the pattern of the
    specification when the label and the case id are made of letters,
    digits, underscores and dashes only and the year has four digits. *)
Theorem archive_name_matches (opts : Options) :
  (exists rand,
     String.length rand = 5%nat /\ all_chars is_lower rand = true
     /\ _get_archive_name now rng opts
        = "sos-collector" +:+ dash_part (opts_label opts)
          +:+ dash_part (opts_case_id opts)
          +:+ "-" +:+ strftime_ymd now +:+ "-" +:+ rand)
  /\ (four_digit_date now ->
      word_only (opts_label opts) = true ->
      word_only (opts_case_id opts) = true ->
      Matches archive_re (_get_archive_name now rng opts)).
Proof.
  split.
  - exists (rand5 rng). split; [reflexivity|]. split.
    + unfold rand5. cbn [seq map string_of_list_ascii all_chars].
      now rewrite !random_choice_lower.
    + rewrite archive_name_form, !app_assoc_s. reflexivity.
  - intros (Hy & _ & _) Hl Hc.
    rewrite archive_name_form, !app_assoc_s. unfold archive_re, strftime_ymd.
    rewrite !app_assoc_s.
    repeat first
      [ apply Matches_rand5
      | apply MCat;
        [ first [ apply MLit | now apply Matches_dash_part
                | apply Matches_fmt_year; lia | apply Matches_two_digits ] |] ].
Qed.

End ArchiveName.

Lemma archive_name_matches_witness :
  let now := mkDate 2020 3 7 in
  let opts := sample_opts (Some "web_tier") (Some "0123-45") in
  four_digit_date now
  /\ word_only (opts_label opts) = true
  /\ word_only (opts_case_id opts) = true
  /\ _get_archive_name now (fun n => n) opts
     = "sos-collector-web_tier-0123-45-2020-03-07-abcde"
  /\ Matches archive_re (_get_archive_name now (fun n => n) opts).
Proof.
  intros now opts.
  assert (Hd : four_digit_date now) by (unfold four_digit_date; simpl; lia).
  split; [exact Hd|]. split; [reflexivity|]. split; [reflexivity|].
  split; [reflexivity|].
  exact (proj2 (archive_name_matches now (fun n => n) opts) Hd eq_refl eq_refl).
Defined.

(** A label with a character outside the class, here a dot, gives a name
    the pattern does not match. *)
Lemma archive_name_label_unmatched :
  let name := _get_archive_name (mkDate 2020 3 7) (fun n => n)
                (sample_opts (Some "web.tier") None) in
  name = "sos-collector-web.tier-2020-03-07-abcde"
  /\ ~ Matches archive_re name.
Proof.
  split; [reflexivity|]. intros H.
  apply (Matches_within is_word) in H; [|exact archive_re_within].
  vm_compute in H. discriminate.
Qed.

(** * Further properties *)

(** ** [parse_cluster_options] *)

(** No piece of a split contains the separator. *)
Lemma split_pieces_nosep (sep : ascii) (s : string) :
  Forall (fun p => Py.contains sep p = false) (Py.split sep s).
Proof.
  induction s as [|x s IH]; simpl.
  - repeat constructor.
  - destruct (Ascii.eqb_spec x sep) as [->|Hx].
    + constructor; [reflexivity | exact IH].
    + assert (Hsx : Ascii.eqb sep x = false)
        by (apply Ascii.eqb_neq; congruence).
      destruct (Py.split sep s) as [|h t].
      * constructor; [|constructor]. simpl. now rewrite Hsx.
      * inversion IH as [|? ? Hh Ht]; subst.
        constructor; [|exact Ht]. simpl. now rewrite Hsx, Hh.
Qed.

(** How [parse_cluster_options] ends. Without [-c] arguments it returns
    the empty list. With arguments it never returns, and the first one
    decides how it fails: an argument without a dot raises [IndexError], an
    argument with a dot raises [NameError] at the call of [ClusterOption],
    a name the module does not bind. It never exits. *)
Theorem parse_cluster_options_outcome (cluster_options : list string) :
  parse_cluster_options cluster_options =
    match cluster_options with
    | [] => Ret []
    | option :: _ =>
        if Py.contains "." option then Raise (NameError "ClusterOption")
        else Raise IndexError
    end.
Proof.
  destruct cluster_options as [|option rest]; [reflexivity|].
  unfold parse_cluster_options. cbn [mapM].
  destruct (Py.contains "." option) eqn:Ho.
  - now rewrite (parse_cluster_option_dot option Ho).
  - now rewrite (parse_cluster_option_no_dot option Ho).
Qed.

(** Words of [str.split()] are not empty and hold no whitespace. *)
Lemma all_chars_list (p : ascii -> bool) (l : list ascii) :
  all_chars p (string_of_list_ascii l) = forallb p l.
Proof. induction l as [|c l IH]; simpl; [reflexivity | now rewrite IH]. Qed.

Lemma split_ws_from_words (cur : list ascii) (s : string) :
  forallb (fun c => negb (Py.isspace c)) cur = true ->
  Forall (fun w => w <> "" /\ all_chars (fun c => negb (Py.isspace c)) w = true)
         (Py.split_ws_from cur s).
Proof.
  assert (Hword : forall cur, cur <> [] ->
            forallb (fun c => negb (Py.isspace c)) cur = true ->
            string_of_list_ascii (rev cur) <> ""
            /\ all_chars (fun c => negb (Py.isspace c))
                 (string_of_list_ascii (rev cur)) = true).
  { intros l Hne Hl. split.
    - destruct l as [|c l]; [congruence|]. simpl.
      destruct (rev l); discriminate.
    - rewrite all_chars_list, forallb_forall. intros x Hx.
      apply in_rev in Hx. revert x Hx. now apply forallb_forall. }
  revert cur. induction s as [|c s IH]; intros cur Hcur; simpl.
  - destruct cur as [|x cur]; [constructor|].
    constructor; [now apply Hword | constructor].
  - destruct (Py.isspace c) eqn:Hc.
    + destruct cur as [|x cur]; [now apply IH|].
      constructor; [now apply Hword | now apply IH].
    + apply IH. simpl. now rewrite Hc.
Qed.

(** What the loop body of [parse_cluster_options] hands to the call of
    [ClusterOption]: the value is a non-empty string without whitespace,
    the profile part holds no dot, and the name holds neither a dot nor an
    equals sign. *)
Theorem cluster_option_locals_fields (option c n v : string) :
  cluster_option_locals option = Ret (c, n, v) ->
  v <> ""
  /\ all_chars (fun x => negb (Py.isspace x)) v = true
  /\ Py.contains "." c = false
  /\ Py.contains "." n = false
  /\ Py.contains "=" n = false.
Proof.
  unfold cluster_option_locals. intros H.
  pose proof (split_pieces_nosep "." option) as Hdot.
  destruct (Py.split "." option) as [|a [|b rest]]; simpl in H;
    try discriminate.
  inversion Hdot as [|? ? Ha Hrest]; subst.
  inversion Hrest as [|? ? Hb _]; subst.
  pose proof (split_pieces_nosep "=" b) as Heq.
  pose proof (split_pieces_absent "." "=" b Hb) as Hbd.
  destruct (Py.split "=" b) as [|n' ns]; simpl in H; [discriminate|].
  inversion Heq; subst. inversion Hbd; subst.
  inversion H; subst; simpl. clear H.
  assert (Hv : forall w : string,
             w <> "" /\ all_chars (fun x => negb (Py.isspace x)) w = true ->
             w <> "" /\ all_chars (fun x => negb (Py.isspace x)) w = true
             /\ Py.contains "." c = false /\ Py.contains "." n = false
             /\ Py.contains "=" n = false) by (intros w [? ?]; auto).
  destruct (Py.split "=" option) as [|x [|rhs r]]; simpl;
    try (apply Hv; split; [discriminate | reflexivity]).
  pose proof (split_ws_from_words [] rhs eq_refl) as Hw.
  fold (Py.split_ws rhs) in Hw.
  destruct (Py.split_ws rhs) as [|w ws]; simpl;
    [apply Hv; split; [discriminate | reflexivity]|].
  inversion Hw as [|? ? Hw1 _]; subst. now apply Hv.
Qed.

Lemma cluster_option_locals_fields_witness :
  cluster_option_locals "ovirt.no-database= off  now"
  = Ret ("ovirt", "no-database", "off")
  /\ Py.contains "=" "no-database" = false.
Proof.
  split; [reflexivity|].
  exact (proj2 (proj2 (proj2 (proj2 (cluster_option_locals_fields
           "ovirt.no-database= off  now" "ovirt" "no-database" "off"
           eq_refl))))).
Defined.

(** ** [verify_cluster_options] *)

Lemma scan_options_existsb (opt : ClusterOption) (opts : list ClusterOption)
    (m : bool) :
  scan_options opt opts m
  = existsb (fun o => String.eqb (name opt) (name o)) opts || m.
Proof.
  induction opts as [|o opts IH]; simpl; [reflexivity|].
  destruct (String.eqb (name opt) (name o)); [reflexivity | exact IH].
Qed.

Lemma scan_clusters_existsb (opt : ClusterOption) (clusters : registry)
    (m : bool) :
  scan_clusters opt clusters m
  = m || existsb (fun c => existsb (fun o => String.eqb (name opt) (name o))
                                   (options c)) (values clusters).
Proof.
  unfold scan_clusters. revert m.
  induction (values clusters) as [|c l IH]; intros m; simpl.
  - now rewrite orb_false_r.
  - rewrite IH, scan_options_existsb.
    destruct m, (existsb _ (options c)); reflexivity.
Qed.

(** The run ends, with exit code 1, exactly when options were given and
    the name of the last one is declared by no loaded profile. Neither the
    options before the last nor the profile an option is addressed to play
    a part. *)
Theorem verify_cluster_options_outcome (clusters : registry)
    (cluster_options : list ClusterOption) :
  verify_cluster_options clusters cluster_options
  = match last cluster_options with
    | None => Ret tt
    | Some opt =>
        if existsb (fun c => existsb (fun o => String.eqb (name opt) (name o))
                                     (options c)) (values clusters)
        then Ret tt
        else Exit 1 ("Unknown cluster option provided: " +:+ cluster opt
                     +:+ "." +:+ name opt)
    end.
Proof.
  destruct cluster_options as [|x l] using rev_ind; [reflexivity|].
  rewrite last_snoc. unfold verify_cluster_options.
  rewrite verify_loop_last, scan_clusters_existsb. simpl.
  now destruct (existsb _ (values clusters)).
Qed.

(** ** [determine_cluster] *)

Section DetectionFacts.

Variable m : SosNode.

Lemma determine_loop_sync_None (l : list Cluster) :
  determine_loop m l l = None
  <-> Forall (fun c => check_enabled c m = false) l.
Proof.
  induction l as [|x l IH]; simpl.
  - split; [constructor | reflexivity].
  - rewrite String.eqb_refl.
    destruct (check_enabled x m) eqn:Hx.
    + split; [discriminate|]. intros H. inversion H; congruence.
    + rewrite IH. split; [now constructor | now inversion 1].
Qed.

Lemma determine_cluster_none_lemma_m (clusters : registry) :
  determine_cluster clusters m = None
  <-> Forall (fun c => check_enabled c m = false) (values clusters).
Proof. apply determine_loop_sync_None. Qed.

(** No profile is selected exactly when no loaded profile matches the
    primary node. *)
Theorem determine_cluster_none_iff (clusters : registry) :
  determine_cluster clusters m = None
  <-> Forall (fun c => check_enabled c m = false) (values clusters).
Proof. apply determine_loop_sync_None. Qed.

Lemma determine_loop_sync_Some (l : list Cluster) (c : Cluster) :
  determine_loop m l l = Some c ->
  exists pre b post,
    l = pre ++ b :: post
    /\ Forall (fun x => check_enabled x m = false) pre
    /\ check_enabled b m = true
    /\ c = layered m (set_master m b) post.
Proof.
  induction l as [|x l IH]; simpl; [discriminate|].
  rewrite String.eqb_refl.
  destruct (check_enabled x m) eqn:Hx.
  - intros [= <-]. exists [], x, l. repeat split; auto.
  - intros H. destruct (IH H) as (pre & b & post & -> & Hpre & Hb & Hc).
    exists (x :: pre), b, post. repeat split; auto.
Qed.

(** The profile selected is one of the loaded profiles, its check matches
    the primary node, and the primary node has been assigned to it. It is
    the first matching profile of the registry or a profile derived from
    it. *)
Theorem determine_cluster_sound (clusters : registry) (c : Cluster) :
  determine_cluster clusters m = Some c ->
  master c = Some m
  /\ check_enabled c m = true
  /\ exists pre b post c0,
       values clusters = pre ++ b :: post
       /\ Forall (fun x => check_enabled x m = false) pre
       /\ check_enabled b m = true
       /\ In c0 (b :: post)
       /\ c = set_master m c0
       /\ issubclass c0 b = true.
Proof.
  intros H. apply determine_loop_sync_Some in H
    as (pre & b & post & Hv & Hpre & Hb & ->).
  rewrite layered_find.
  change (layer_of m (set_master m b)) with (layer_of m b).
  destruct (find (layer_of m b) post) as [d|] eqn:Hfind.
  - destruct (find_some _ _ Hfind) as [Hin Hl].
    unfold layer_of in Hl. apply andb_true_iff in Hl as [Hs He].
    split; [reflexivity | split; [exact He|]].
    exists pre, b, post, d. repeat split; auto. now right.
  - split; [reflexivity | split; [exact Hb|]].
    exists pre, b, post, b. repeat split; auto; [now left|].
    unfold issubclass, Py.mem. simpl. now rewrite String.eqb_refl.
Qed.

End DetectionFacts.

Lemma determine_cluster_sound_witness :
  let clusters := [("pacemaker", profile "pacemaker" [] false);
                   ("ovirt", profile "ovirt" [] true);
                   ("rhv", profile "rhv" ["ovirt"] true)] in
  determine_cluster clusters primary0
  = Some (set_master primary0 (profile "rhv" ["ovirt"] true))
  /\ master (set_master primary0 (profile "rhv" ["ovirt"] true))
     = Some primary0.
Proof.
  intros clusters. split; [reflexivity|].
  exact (proj1 (determine_cluster_sound primary0 clusters
                  (set_master primary0 (profile "rhv" ["ovirt"] true))
                  eq_refl)).
Defined.

(** ** [parse_node_strings] *)

Lemma splits_regex_no_bracket (s : string) :
  Py.contains "[" s = false -> splits_regex s = false.
Proof. unfold splits_regex. now intros ->. Qed.

Lemma code_tokens_split (cur s : string) :
  Py.contains "[" cur = false -> Py.contains "[" s = false ->
  code_tokens cur s
  = match Py.split "," s with
    | h :: t => (cur +:+ h) :: t
    | [] => []
    end.
Proof.
  revert cur. induction s as [|c s IH]; intros cur Hcur Hs.
  - simpl. rewrite (splits_regex_no_bracket cur Hcur), app_nil_r_s.
    reflexivity.
  - simpl in Hs. apply orb_false_iff in Hs as [Hc Hs].
    cbn [code_tokens Py.split].
    rewrite (splits_regex_no_bracket cur Hcur). cbn [negb].
    rewrite andb_true_r.
    destruct (Ascii.eqb c ",") eqn:Ec.
    + rewrite (IH "" eq_refl Hs), app_nil_r_s.
      pose proof (split_nonempty "," s).
      destruct (Py.split "," s); [congruence | reflexivity].
    + rewrite IH; [| |exact Hs].
      * pose proof (split_nonempty "," s).
        destruct (Py.split "," s) as [|h t]; [congruence|].
        now rewrite app_assoc_s.
      * rewrite contains_app. simpl. now rewrite Hcur, Hc.
Qed.

(** Node strings without an opening bracket are split at every comma, as
    [str.split(',')] does. *)
Theorem parse_node_strings_plain (re_compile : string -> bool)
    (opts_nodes : list string) :
  (forall s, re_compile (Re.escape s) = true) ->
  Forall (fun node => Py.contains "[" node = false) opts_nodes ->
  parse_node_strings re_compile opts_nodes
  = flat_map (Py.split ",") opts_nodes.
Proof.
  intros Hre Hplain. rewrite (parse_node_strings_tokens re_compile Hre).
  induction Hplain as [|node l Hnode _ IH]; simpl; [reflexivity|].
  rewrite IH, (code_tokens_split "" node eq_refl Hnode).
  pose proof (split_nonempty "," node).
  destruct (Py.split "," node); [congruence | reflexivity].
Qed.

Lemma parse_node_strings_plain_witness :
  (forall s, Re.literal_pattern (Re.escape s) = true)
  /\ Forall (fun node => Py.contains "[" node = false) ["host1,host2"; "db*"]
  /\ parse_node_strings Re.literal_pattern ["host1,host2"; "db*"]
     = ["host1"; "host2"; "db*"].
Proof.
  split; [exact literal_pattern_escape|]. split; [repeat constructor|].
  rewrite (parse_node_strings_plain Re.literal_pattern ["host1,host2"; "db*"]
             literal_pattern_escape).
  - reflexivity.
  - repeat constructor.
Defined.

(** Joining the tokens of a node string with commas gives the node string
    back, provided its last token passes the bracket test. *)
Theorem parse_node_strings_join (re_compile : string -> bool)
    (node : string) :
  (forall s, re_compile (Re.escape s) = true) ->
  splits_regex (last_token node) = false ->
  String.concat "," (parse_node_strings re_compile [node]) = node.
Proof.
  intros Hre Hlast. rewrite (parse_node_strings_tokens re_compile Hre).
  simpl. rewrite app_nil_r, (code_tokens_rule "" node Hlast).
  apply rule_tokens_concat.
Qed.

Lemma parse_node_strings_join_witness :
  (forall s, Re.literal_pattern (Re.escape s) = true)
  /\ splits_regex (last_token "node1,web-[0,1],db") = false
  /\ String.concat "," (parse_node_strings Re.literal_pattern
                          ["node1,web-[0,1],db"])
     = "node1,web-[0,1],db".
Proof.
  split; [exact literal_pattern_escape|]. split; [reflexivity|].
  apply (parse_node_strings_join Re.literal_pattern "node1,web-[0,1],db"
           literal_pattern_escape).
  reflexivity.
Defined.

Lemma code_tokens_pass (cur s : string) :
  Forall (fun t => splits_regex t = false) (code_tokens cur s).
Proof.
  revert cur. induction s as [|c s IH]; intros cur; simpl.
  - destruct (splits_regex cur) eqn:E; repeat constructor. exact E.
  - destruct (splits_regex cur) eqn:E; rewrite ?andb_false_r; simpl;
      [apply IH|].
    rewrite andb_true_r. destruct (Ascii.eqb c ",").
    + constructor; [exact E | apply IH].
    + apply IH.
Qed.

(** No token returned has an opening bracket without a closing one. *)
Theorem parse_node_strings_tokens_pass (re_compile : string -> bool)
    (opts_nodes : list string) :
  (forall s, re_compile (Re.escape s) = true) ->
  Forall (fun t => splits_regex t = false)
         (parse_node_strings re_compile opts_nodes).
Proof.
  intros Hre. rewrite (parse_node_strings_tokens re_compile Hre).
  induction opts_nodes as [|node l IH]; simpl; [constructor|].
  apply Forall_app. split; [apply code_tokens_pass | exact IH].
Qed.

Lemma parse_node_strings_tokens_pass_witness :
  (forall s, Re.literal_pattern (Re.escape s) = true)
  /\ Forall (fun t => splits_regex t = false)
            (parse_node_strings Re.literal_pattern ["a,[b,c],[d"]).
Proof.
  split; [exact literal_pattern_escape|].
  exact (parse_node_strings_tokens_pass Re.literal_pattern ["a,[b,c],[d"]
           literal_pattern_escape).
Defined.

Lemma code_tokens_drop (cur s : string) :
  splits_regex (List.last (rule_tokens cur s) "") = true ->
  code_tokens cur s = removelast (rule_tokens cur s).
Proof.
  revert cur. induction s as [|c s IH]; intros cur; simpl.
  - now intros ->.
  - destruct (_ && _); [|apply IH].
    pose proof (rule_tokens_nonempty "" s) as Hne.
    destruct (rule_tokens "" s) as [|t ts] eqn:E; [congruence|].
    intros H. change (removelast (cur :: t :: ts))
      with (cur :: removelast (t :: ts)).
    f_equal. rewrite <- E. apply IH. now rewrite E.
Qed.

(** When the text after the last separator has an opening bracket and no
    closing one, that last token is left out and the tokens before it are
    returned. *)
Theorem parse_node_strings_open_tail (re_compile : string -> bool)
    (node : string) :
  (forall s, re_compile (Re.escape s) = true) ->
  splits_regex (last_token node) = true ->
  parse_node_strings re_compile [node] = removelast (rule_tokens "" node).
Proof.
  intros Hre Hlast. rewrite (parse_node_strings_tokens re_compile Hre).
  simpl. rewrite app_nil_r. now apply code_tokens_drop.
Qed.

Lemma parse_node_strings_open_tail_witness :
  (forall s, Re.literal_pattern (Re.escape s) = true)
  /\ splits_regex (last_token "node1,web-[0,1") = true
  /\ parse_node_strings Re.literal_pattern ["node1,web-[0,1"] = ["node1"].
Proof.
  split; [exact literal_pattern_escape|]. split; [reflexivity|].
  rewrite (parse_node_strings_open_tail Re.literal_pattern "node1,web-[0,1"
             literal_pattern_escape eq_refl).
  reflexivity.
Defined.

(** ** Removing from a list while iterating over it *)

Lemma remove_app_fresh (n : string) (kept rest : list string) :
  ~ In n kept -> Py.remove n (kept ++ n :: rest) = kept ++ rest.
Proof.
  induction kept as [|k kept IH]; simpl; intros H.
  - now rewrite String.eqb_refl.
  - destruct (String.eqb_spec n k) as [->|_]; [tauto|].
    f_equal. apply IH. tauto.
Qed.

Lemma lookup_middle (kept rest : list string) (n : string) :
  (kept ++ n :: rest) !! length kept = Some n.
Proof. apply list_lookup_middle. reflexivity. Qed.

Lemma iter_remove_skip (p : string -> bool) (fuel : nat)
    (kept rest : list string) :
  NoDup (kept ++ rest) -> length rest <= fuel ->
  iter_remove p fuel (length kept) (kept ++ rest)
  = kept ++ skip_remove p rest.
Proof.
  revert kept rest. induction fuel as [|fuel IH]; intros kept rest Hnd Hlen.
  - destruct rest; [reflexivity | simpl in Hlen; lia].
  - destruct rest as [|n rest].
    + simpl. rewrite app_nil_r. now rewrite lookup_ge_None_2 by lia.
    + cbn [iter_remove]. rewrite lookup_middle. cbn [skip_remove].
      destruct (p n) eqn:Hp.
      * rewrite remove_app_fresh.
        2:{ apply NoDup_app in Hnd as (_ & Hdisj & _). intros Hin.
            apply (Hdisj n); [now apply list_elem_of_In | left]. }
        destruct rest as [|n' rest'].
        -- destruct fuel; simpl; [reflexivity|].
           now rewrite lookup_ge_None_2 by (rewrite app_nil_r; lia).
        -- replace (S (length kept)) with (length (kept ++ [n']))
             by (rewrite length_app; simpl; lia).
           replace (kept ++ n' :: rest') with ((kept ++ [n']) ++ rest')
             by (now rewrite <- app_assoc).
           rewrite IH.
           ++ now rewrite <- app_assoc.
           ++ rewrite <- app_assoc. simpl.
              apply NoDup_app in Hnd as (H1 & H2 & H3).
              apply NoDup_cons in H3 as [_ H3].
              apply NoDup_app. repeat split; auto.
              intros x Hx Hx'. apply (H2 x Hx). now right.
           ++ simpl in Hlen. lia.
      * replace (S (length kept)) with (length (kept ++ [n]))
          by (rewrite length_app; simpl; lia).
        replace (kept ++ n :: rest) with ((kept ++ [n]) ++ rest)
          by (now rewrite <- app_assoc).
        rewrite IH.
        -- now rewrite <- app_assoc.
        -- now rewrite <- app_assoc.
        -- simpl in Hlen. lia.
Qed.

Lemma for_remove_skip_remove (p : string -> bool) (l : list string) :
  NoDup l -> for_remove p l = skip_remove p l.
Proof.
  intros Hnd. unfold for_remove.
  apply (iter_remove_skip p (length l) [] l); [exact Hnd | lia].
Qed.

(** On a list without duplicates the removing loop takes out an entry
    that satisfies the test and then passes over the next entry without
    testing it. *)
Theorem for_remove_skips (p : string -> bool) (l : list string) :
  NoDup l -> for_remove p l = skip_remove p l.
Proof. apply for_remove_skip_remove. Qed.

Lemma for_remove_skips_witness :
  NoDup ["a*"; "b*"; "c"; "d?"]
  /\ for_remove (Py.contains_any ["*"; "?"]%char) ["a*"; "b*"; "c"; "d?"]
     = ["b*"; "c"].
Proof.
  assert (H : NoDup ["a*"; "b*"; "c"; "d?"])
    by (apply (bool_decide_unpack _); vm_compute; exact I).
  split; [exact H|].
  rewrite (for_remove_skips (Py.contains_any ["*"; "?"]%char) _ H).
  reflexivity.
Defined.

Lemma skip_remove_filter (p : string -> bool) (l : list string) :
  no_adjacent p l = true ->
  skip_remove p l = List.filter (fun n => negb (p n)) l.
Proof.
  induction l as [|a l IH]; [reflexivity|].
  destruct l as [|b l].
  - intros _. simpl. now destruct (p a).
  - intros H.
    change (no_adjacent p (a :: b :: l))
      with (negb (p a && p b) && no_adjacent p (b :: l)) in H.
    apply andb_true_iff in H as [Hab Hrest].
    specialize (IH Hrest).
    cbn [skip_remove List.filter] in *.
    destruct (p a) eqn:Ha; cbn [negb].
    + destruct (p b) eqn:Hb; [discriminate|]. cbn [negb] in *.
      injection IH as IH. f_equal. exact IH.
    + f_equal. exact IH.
Qed.

(** When, besides, no two neighbours both satisfy the test, the loop
    removes exactly the entries that satisfy it. *)
Theorem for_remove_filter (p : string -> bool) (l : list string) :
  NoDup l -> no_adjacent p l = true ->
  for_remove p l = List.filter (fun n => negb (p n)) l.
Proof.
  intros Hnd Hadj. rewrite (for_remove_skip_remove p l Hnd).
  now apply skip_remove_filter.
Qed.

Lemma for_remove_filter_witness :
  NoDup ["a*"; "b"; "c?"; "d"]
  /\ no_adjacent (Py.contains_any ["*"; "?"]%char) ["a*"; "b"; "c?"; "d"]
     = true
  /\ for_remove (Py.contains_any ["*"; "?"]%char) ["a*"; "b"; "c?"; "d"]
     = ["b"; "d"].
Proof.
  assert (H : NoDup ["a*"; "b"; "c?"; "d"])
    by (apply (bool_decide_unpack _); vm_compute; exact I).
  split; [exact H|]. split; [reflexivity|].
  rewrite (for_remove_filter (Py.contains_any ["*"; "?"]%char) _ H eq_refl).
  reflexivity.
Defined.

(** ** More on node reconciliation *)

Lemma no_adjacent_unique (p : string -> bool) (l : list string) :
  NoDup l ->
  (forall a b, In a l -> In b l -> p a = true -> p b = true -> a = b) ->
  no_adjacent p l = true.
Proof.
  induction 1 as [|a l Ha Hl IH]; intros Huniq; [reflexivity|].
  destruct l as [|b l]; [reflexivity|].
  change (no_adjacent p (a :: b :: l))
    with (negb (p a && p b) && no_adjacent p (b :: l)).
  rewrite IH by (intros x y Hx Hy; apply Huniq; now right).
  rewrite andb_true_r.
  destruct (p a) eqn:Hpa, (p b) eqn:Hpb; try reflexivity.
  exfalso. apply Ha. rewrite (Huniq a b); simpl; auto. now left.
Qed.

Lemma remove_ips_NoDup (ips l : list string) :
  NoDup l ->
  NoDup (fold_left (fun nl i => if Py.mem i nl then Py.remove i nl else nl)
                   ips l).
Proof.
  revert l. induction ips as [|i ips IH]; simpl; intros l H; [exact H|].
  apply IH. destruct (Py.mem i l); [now apply remove_NoDup | exact H].
Qed.

Lemma remove_ips_In (ips l : list string) (x : string) :
  In x (fold_left (fun nl i => if Py.mem i nl then Py.remove i nl else nl)
                  ips l) -> In x l.
Proof.
  revert l. induction ips as [|i ips IH]; simpl; intros l H; [exact H|].
  apply IH in H. destruct (Py.mem i l); [eapply remove_In, H | exact H].
Qed.

(** The primary leaves the list when the gathered list has no duplicates
    and does not hold the primary under two different names (its host name
    and the value of [--master]). *)
Theorem reduce_node_list_drops_primary (self : Self) (m : SosNode)
    (gathered : list string) :
  self_master self = Some m ->
  NoDup gathered ->
  (hostname m = opts_master (self_opts self)
   \/ ~ In (hostname m) gathered
   \/ ~ In (opts_master (self_opts self)) gathered) ->
  ~ In (hostname m) (reduce_node_list self gathered)
  /\ ~ In (opts_master (self_opts self)) (reduce_node_list self gathered).
Proof.
  intros Hm Hnd Hone. unfold reduce_node_list. rewrite Hm.
  set (l1 := if Py.mem (self_hostname self) gathered
                && opts_no_local (self_opts self)
             then Py.remove (self_hostname self) gathered else gathered).
  set (l2 := fold_left _ (self_ip_addrs self) l1).
  assert (Hnd1 : NoDup l1).
  { subst l1. destruct (_ && _); [now apply remove_NoDup | exact Hnd]. }
  assert (Hsub : forall x, In x l2 -> In x gathered).
  { intros x Hx. apply remove_ips_In in Hx. subst l1.
    destruct (_ && _); [eapply remove_In, Hx | exact Hx]. }
  assert (Hnd2 : NoDup l2) by now apply remove_ips_NoDup.
  fold (is_primary self m).
  rewrite (for_remove_skip_remove (is_primary self m) l2 Hnd2).
  rewrite skip_remove_filter.
  - split; intros H; apply dedup_nonempty_In in H as [H _];
      apply filter_In in H as [_ H]; unfold is_primary in H;
      rewrite String.eqb_refl, ?orb_true_r in H; discriminate.
  - apply no_adjacent_unique; [exact Hnd2|].
    intros a b Ha Hb Hpa Hpb. apply Hsub in Ha, Hb.
    unfold is_primary in Hpa, Hpb.
    apply orb_true_iff in Hpa as [Hpa|Hpa], Hpb as [Hpb|Hpb];
      apply String.eqb_eq in Hpa, Hpb; subst;
      destruct Hone as [Heq|[Hno|Hno]]; congruence.
Qed.

Lemma reduce_node_list_drops_primary_witness :
  let nodes := ["node1"; "primary.example.com"; "node2"] in
  let self := sample_self nodes in
  self_master self = Some sample_primary
  /\ NoDup nodes
  /\ ~ In "10.0.0.5" nodes
  /\ ~ In "primary.example.com" (reduce_node_list self nodes).
Proof.
  intros nodes self.
  assert (Hnd : NoDup nodes)
    by (apply (bool_decide_unpack _); vm_compute; exact I).
  assert (Hno : ~ In "10.0.0.5" nodes)
    by (simpl; intros [H|[H|[H|[]]]]; discriminate).
  split; [reflexivity|]. split; [exact Hnd|]. split; [exact Hno|].
  exact (proj1 (reduce_node_list_drops_primary self sample_primary nodes
                  eq_refl Hnd (or_intror (or_intror Hno)))).
Defined.

Section MoreGetNodes.

Variable fnmatch_match : string -> string -> bool.

Lemma max_length_bound (l : list string) (n : string) :
  In n l ->
  String.length n
  <= foldr (fun n acc => Nat.max (String.length n) acc) 0 l.
Proof.
  induction l as [|x l IH]; simpl; [tauto|].
  intros [->|H]; [lia | specialize (IH H); lia].
Qed.

(** The width computed for the listing is at least the length of every
    node name; for an empty node list it is the length of the value of
    [--master]. *)
Theorem get_nodes_hostlen (self : Self) (node_list : list string)
    (hostlen : nat) :
  get_nodes fnmatch_match self = Ret (node_list, hostlen) ->
  (forall n, In n node_list -> String.length n <= hostlen)
  /\ (node_list = [] ->
      hostlen = String.length (opts_master (self_opts self))).
Proof.
  unfold get_nodes. intros H.
  destruct (get_nodes_gather fnmatch_match self) as [g| |]; simpl in H;
    try discriminate.
  injection H as <- <-. split.
  - intros n Hn. destruct (reduce_node_list self g) eqn:E; [destruct Hn|].
    rewrite <- E in *. now apply max_length_bound.
  - now intros ->.
Qed.

Lemma force_add_In (src acc : list string) (x : string) :
  In x (force_add src acc) ->
  In x acc
  \/ (In x src
      /\ Py.contains_any ["*"; "\"; "?"; "("; ")"; "/"; "["; "]"]%char x
         = false).
Proof.
  unfold force_add. revert acc.
  induction src as [|s src IH]; cbn [fold_left]; intros acc H; [now left|].
  apply IH in H as [H|[H1 H2]]; [|right; split; [now right | exact H2]].
  destruct (Py.contains_any _ s) eqn:Hs; [now left|].
  destruct (negb (Py.mem s acc)); [|now left].
  apply in_app_or in H as [H|[<-|[]]]; [now left|].
  right. split; [now left | exact Hs].
Qed.

Lemma force_add_keeps (src acc : list string) (x : string) :
  In x acc -> In x (force_add src acc).
Proof.
  unfold force_add. revert acc.
  induction src as [|s src IH]; cbn [fold_left]; intros acc H; [exact H|].
  apply IH. destruct (Py.contains_any _ s); [exact H|].
  destruct (negb (Py.mem s acc)); [apply in_or_app; now left | exact H].
Qed.

(** With a primary, what is gathered is the list from the [try] block, or
    from the pruned [--nodes] list when that block fails, with the plain
    names of [--nodes] added. *)
Lemma get_nodes_gather_primary (self : Self) (m : SosNode)
    (g : list string) :
  self_master self = Some m ->
  get_nodes_gather fnmatch_match self = Ret g ->
  (exists base, get_nodes_try fnmatch_match self = Ret (Some base)
                /\ g = force_add (opts_nodes (self_opts self)) base)
  \/ (exists e, get_nodes_try fnmatch_match self = Raise e
                /\ let base := for_remove
                       (Py.contains_any ["*"; "\"; "?"; "("; ")"; "/"]%char)
                       (opts_nodes (self_opts self)) in
                   g = force_add base base).
Proof.
  intros Hm. unfold get_nodes_gather. rewrite Hm. simpl.
  destruct (get_nodes_try fnmatch_match self) as [[base|]| |e]; simpl.
  - intros H. left. exists base. split; [reflexivity|].
    destruct (opts_nodes (self_opts self)) as [|n l]; simpl in H |- *;
      now injection H as <-.
  - destruct (opts_nodes (self_opts self)); simpl; discriminate.
  - discriminate.
  - intros H. right. exists e. split; [reflexivity|]. simpl.
    destruct (for_remove _ (opts_nodes (self_opts self))) as [|n l];
      simpl in H |- *; now injection H as <-.
Qed.

(** When the node list cannot be taken from the profile, every node of
    the result is one of the strings given with [--nodes]. *)
Theorem get_nodes_fallback (self : Self) (m : SosNode) (e : pyexn)
    (node_list : list string) (hostlen : nat) :
  self_master self = Some m ->
  get_nodes_try fnmatch_match self = Raise e ->
  get_nodes fnmatch_match self = Ret (node_list, hostlen) ->
  forall n, In n node_list -> In n (opts_nodes (self_opts self)).
Proof.
  intros Hm Htry H n Hn. unfold get_nodes in H.
  destruct (get_nodes_gather fnmatch_match self) as [g| |] eqn:Hg;
    simpl in H; try discriminate.
  injection H as <- _. apply reduce_node_list_In in Hn.
  destruct (get_nodes_gather_primary self m g Hm Hg)
    as [(base & Hb & _)|(e' & _ & ->)]; [congruence|].
  apply force_add_In in Hn as [Hn|[Hn _]]; eapply iter_remove_In, Hn.
Qed.

(** When the profile gives its node list, every node of the result is a
    node of the profile that matches one of the [--nodes] patterns (any
    node of the profile when there is no [--nodes]), or a [--nodes] string
    without pattern characters. *)
Theorem get_nodes_filtered (self : Self) (m : SosNode)
    (enumerated node_list : list string) (hostlen : nat) :
  self_master self = Some m ->
  get_nodes_from_cluster self = Ret (Some enumerated) ->
  get_nodes fnmatch_match self = Ret (node_list, hostlen) ->
  forall n, In n node_list ->
    (In n enumerated
     /\ (opts_nodes (self_opts self) = []
         \/ compare_node_to_regex fnmatch_match self n = true))
    \/ (In n (opts_nodes (self_opts self))
        /\ Py.contains_any ["*"; "\"; "?"; "("; ")"; "/"; "["; "]"]%char n
           = false).
Proof.
  intros Hm Hc H n Hn. unfold get_nodes in H.
  destruct (get_nodes_gather fnmatch_match self) as [g| |] eqn:Hg;
    simpl in H; try discriminate.
  injection H as <- _. apply reduce_node_list_In in Hn.
  assert (Htry : get_nodes_try fnmatch_match self
                 = Ret (Some (match opts_nodes (self_opts self) with
                              | [] => enumerated
                              | _ => filter (fun node => Is_true
                                       (compare_node_to_regex fnmatch_match
                                          self node)) enumerated
                              end))).
  { unfold get_nodes_try. rewrite Hc. simpl.
    now destruct (opts_nodes (self_opts self)). }
  destruct (get_nodes_gather_primary self m g Hm Hg)
    as [(base & Hb & ->)|(e' & He & _)]; [|congruence].
  rewrite Htry in Hb. injection Hb as <-.
  apply force_add_In in Hn as [Hn|Hn]; [left | now right].
  destruct (opts_nodes (self_opts self)) as [|p ps]; [auto|].
  apply list_elem_of_In, list_elem_of_filter in Hn as [Hcmp Hin].
  split; [now apply list_elem_of_In | right; now apply Is_true_true].
Qed.

End MoreGetNodes.

Lemma remove_keeps (x y : string) (l : list string) :
  In x l -> x <> y -> In x (Py.remove y l).
Proof.
  induction l as [|z l IH]; simpl; [tauto|].
  intros [->|H] Hne.
  - destruct (String.eqb_spec y x) as [->|_]; [congruence | now left].
  - destruct (String.eqb y z); [exact H | right; auto].
Qed.

Lemma iter_remove_keeps (p : string -> bool) (fuel i : nat)
    (l : list string) (x : string) :
  In x l -> p x = false -> In x (iter_remove p fuel i l).
Proof.
  revert i l. induction fuel as [|fuel IH]; intros i l Hin Hp; simpl;
    [exact Hin|].
  destruct (l !! i) as [n|]; [|exact Hin].
  apply IH; [|exact Hp].
  destruct (p n) eqn:Hn; [|exact Hin].
  apply remove_keeps; [exact Hin | congruence].
Qed.

Lemma remove_ips_keeps (ips l : list string) (x : string) :
  In x l -> ~ In x ips ->
  In x (fold_left (fun nl i => if Py.mem i nl then Py.remove i nl else nl)
                  ips l).
Proof.
  revert l. induction ips as [|i ips IH]; simpl; intros l Hin Hno;
    [exact Hin|].
  apply IH; [|tauto].
  destruct (Py.mem i l); [|exact Hin].
  apply remove_keeps; [exact Hin | intros ->; tauto].
Qed.

(** A name that is not empty, not a local address, not the primary and,
    under [no_local], not the driver's host name passes through
    [reduce_node_list]. *)
Lemma reduce_node_list_keeps (self : Self) (l : list string) (x : string) :
  In x l -> x <> "" ->
  (opts_no_local (self_opts self) = false \/ x <> self_hostname self) ->
  ~ In x (self_ip_addrs self) ->
  (forall m, self_master self = Some m -> is_primary self m x = false) ->
  In x (reduce_node_list self l).
Proof.
  intros Hin Hne Hlocal Hips Hprim. unfold reduce_node_list.
  apply dedup_nonempty_In. split; [|exact Hne].
  assert (H1 : In x (if Py.mem (self_hostname self) l
                        && opts_no_local (self_opts self)
                     then Py.remove (self_hostname self) l else l)).
  { destruct Hlocal as [->|Hx].
    - now rewrite andb_false_r.
    - destruct (_ && _); [now apply remove_keeps | exact Hin]. }
  apply (remove_ips_keeps (self_ip_addrs self)) in H1; [|exact Hips].
  destruct (self_master self) as [m|]; [|exact H1].
  apply iter_remove_keeps; [exact H1 | now apply Hprim].
Qed.

Section NamedNodes.

Variable fnmatch_match : string -> string -> bool.

Lemma force_add_adds (src acc : list string) (x : string) :
  In x src ->
  Py.contains_any ["*"; "\"; "?"; "("; ")"; "/"; "["; "]"]%char x = false ->
  In x (force_add src acc).
Proof.
  unfold force_add. revert acc.
  induction src as [|s src IH]; cbn [fold_left]; intros acc Hin Hx;
    [destruct Hin|].
  destruct Hin as [->|Hin]; [|now apply IH].
  rewrite Hx. apply (force_add_keeps src).
  destruct (Py.mem x acc) eqn:Hmem; simpl.
  - now apply mem_In.
  - apply in_or_app. right. now left.
Qed.

Lemma contains_any_sub (x : string) :
  Py.contains_any ["*"; "\"; "?"; "("; ")"; "/"; "["; "]"]%char x = false ->
  Py.contains_any ["*"; "\"; "?"; "("; ")"; "/"]%char x = false.
Proof.
  unfold Py.contains_any. simpl. intros H.
  repeat (apply orb_false_iff in H as [? H]).
  repeat (apply orb_false_iff; split); auto.
Qed.

(** A node named with [--nodes] without pattern characters is always in
    the result, whether or not the profile lists it, unless it is empty, a
    local address, the primary or, under [no_local], the driver itself. *)
Theorem get_nodes_named (self : Self) (m : SosNode)
    (node_list : list string) (hostlen : nat) (x : string) :
  self_master self = Some m ->
  get_nodes fnmatch_match self = Ret (node_list, hostlen) ->
  In x (opts_nodes (self_opts self)) ->
  Py.contains_any ["*"; "\"; "?"; "("; ")"; "/"; "["; "]"]%char x = false ->
  x <> "" ->
  (opts_no_local (self_opts self) = false \/ x <> self_hostname self) ->
  ~ In x (self_ip_addrs self) ->
  is_primary self m x = false ->
  In x node_list.
Proof.
  intros Hm H Hin Hplain Hne Hlocal Hips Hprim. unfold get_nodes in H.
  destruct (get_nodes_gather fnmatch_match self) as [g| |] eqn:Hg;
    simpl in H; try discriminate.
  injection H as <- _.
  apply reduce_node_list_keeps; auto.
  - destruct (get_nodes_gather_primary fnmatch_match self m g Hm Hg)
      as [(base & _ & ->)|(e' & _ & ->)].
    + now apply force_add_adds.
    + apply force_add_keeps, iter_remove_keeps; [exact Hin|].
      now apply contains_any_sub.
  - intros m' Hm'. rewrite Hm in Hm'. now injection Hm' as <-.
Qed.

(** Without a primary the driver's own host name closes the gathered
    list. *)
Lemma get_nodes_gather_local (self : Self) (g : list string) :
  self_master self = None ->
  get_nodes_gather fnmatch_match self = Ret g ->
  In (self_hostname self) g.
Proof.
  intros Hm. unfold get_nodes_gather. rewrite Hm. simpl.
  destruct (bool_decide (is_Some (self_cluster self))); simpl;
    [|discriminate].
  pose proof (split_nonempty "." (self_hostname self)) as Hsp.
  destruct (Py.split "." (self_hostname self)) as [|host rest];
    [congruence|]. clear Hsp.
  destruct (get_nodes_try fnmatch_match self) as [o| |e]; simpl;
    try discriminate.
  - destruct (opts_nodes (self_opts self)) as [|n l], o as [nl|]; simpl;
      try discriminate;
      intros [= <-]; rewrite ?in_app_iff; simpl; auto.
  - destruct (for_remove _ (opts_nodes (self_opts self))) as [|n l]; simpl;
      intros [= <-]; rewrite ?in_app_iff; simpl; auto.
Qed.

(** Without a primary and without [no_local], the driver's own host name
    is in the result, provided it is not empty and not one of the local
    addresses. *)
Theorem get_nodes_includes_local (self : Self) (node_list : list string)
    (hostlen : nat) :
  self_master self = None ->
  opts_no_local (self_opts self) = false ->
  self_hostname self <> "" ->
  ~ In (self_hostname self) (self_ip_addrs self) ->
  get_nodes fnmatch_match self = Ret (node_list, hostlen) ->
  In (self_hostname self) node_list.
Proof.
  intros Hm Hnl Hne Hips H. unfold get_nodes in H.
  destruct (get_nodes_gather fnmatch_match self) as [g| |] eqn:Hg;
    simpl in H; try discriminate.
  injection H as <- _.
  apply reduce_node_list_keeps; auto.
  - now apply get_nodes_gather_local.
  - intros m Hm'. congruence.
Qed.

End NamedNodes.

Lemma get_nodes_hostlen_witness :
  get_nodes glob_match (sample_self ["node1"; "longer-node2"])
  = Ret (["node1"; "longer-node2"], 12%nat)
  /\ forall n, In n ["node1"; "longer-node2"] -> String.length n <= 12.
Proof.
  split; [reflexivity|].
  exact (proj1 (get_nodes_hostlen glob_match
                  (sample_self ["node1"; "longer-node2"])
                  ["node1"; "longer-node2"] 12%nat eq_refl)).
Defined.

Lemma get_nodes_fallback_witness :
  let self := sample_self_nodes ["web*"; "db1"; "cache1"]
                (Raise (OtherError "unreachable")) in
  self_master self = Some sample_primary
  /\ get_nodes_try glob_match self = Raise (OtherError "unreachable")
  /\ get_nodes glob_match self = Ret (["cache1"; "db1"], 6%nat)
  /\ forall n, In n ["cache1"; "db1"] -> In n ["web*"; "db1"; "cache1"].
Proof.
  intros self. split; [reflexivity|]. split; [reflexivity|].
  split; [reflexivity|].
  exact (get_nodes_fallback glob_match self sample_primary
           (OtherError "unreachable") ["cache1"; "db1"] 6%nat
           eq_refl eq_refl eq_refl).
Defined.

Lemma get_nodes_filtered_witness :
  let enumerated := ["a.example"; "b.example"; "c.example"] in
  let self := sample_self_nodes ["b*"; "extra"] (Ret enumerated) in
  self_master self = Some sample_primary
  /\ get_nodes_from_cluster self = Ret (Some enumerated)
  /\ get_nodes glob_match self = Ret (["extra"; "b.example"], 9%nat)
  /\ (In "b.example" enumerated
      /\ compare_node_to_regex glob_match self "b.example" = true).
Proof.
  intros enumerated self. split; [reflexivity|]. split; [reflexivity|].
  split; [reflexivity|].
  destruct (get_nodes_filtered glob_match self sample_primary enumerated
              ["extra"; "b.example"] 9%nat eq_refl eq_refl eq_refl
              "b.example") as [[Hin [Hno|Hcmp]]|[Hin _]].
  - right. now left.
  - discriminate.
  - split; [exact Hin | exact Hcmp].
  - exfalso. simpl in Hin. destruct Hin as [H|[H|[]]]; discriminate.
Defined.

Lemma get_nodes_named_witness :
  let self := sample_self_nodes ["b*"; "extra"]
                (Ret ["a.example"; "b.example"; "c.example"]) in
  get_nodes glob_match self = Ret (["extra"; "b.example"], 9%nat)
  /\ In "extra" (opts_nodes (self_opts self))
  /\ In "extra" ["extra"; "b.example"].
Proof.
  intros self. split; [reflexivity|]. split; [now right; left|].
  apply (get_nodes_named glob_match self sample_primary
           ["extra"; "b.example"] 9%nat "extra"); try reflexivity.
  - right. now left.
  - discriminate.
  - right. discriminate.
  - simpl. intros [H|[]]. discriminate.
Defined.

Lemma get_nodes_includes_local_witness :
  let self := sample_self_local ["driver"; "node1"] in
  self_master self = None
  /\ opts_no_local (self_opts self) = false
  /\ get_nodes glob_match self
     = Ret (["node1"; "driver.example.com"], 18%nat)
  /\ In "driver.example.com" ["node1"; "driver.example.com"].
Proof.
  intros self. split; [reflexivity|]. split; [reflexivity|].
  split; [reflexivity|].
  apply (get_nodes_includes_local glob_match self
           ["node1"; "driver.example.com"] 18%nat); try reflexivity.
  - discriminate.
  - simpl. intros [H|[]]. discriminate.
Defined.

(** ** More on [configure_sos_cmd] *)

(** How the call ends: with [True] when a clean override is given;
    otherwise it fails with a [TypeError] exactly when a log size is set,
    the size being a number handed to [quote]. *)
Theorem configure_sos_cmd_ends (quote : string -> string) (opts : Options) :
  ended (configure_sos_cmd quote opts)
  = if clean_override opts then Ret true
    else if (opts_log_size opts =? 0)%Z then Ret false
    else Raise TypeError.
Proof.
  unfold configure_sos_cmd, clean_override, per_flag_cmd.
  destruct (opts_sos_opt_line opts) as [line|];
    [destruct (Py.truthy line); [destruct (Py.contains_any filt line)|]|];
    simpl; try reflexivity;
    now destruct (opts_log_size opts =? 0)%Z.
Qed.

(** ** More on the archive *)

Lemma basename_no_slash (fname : string) :
  Py.contains "/" (Path.basename fname) = false.
Proof.
  unfold Path.basename.
  pose proof (split_pieces_nosep "/" fname) as H.
  induction H as [|x l Hx Hl IH]; [reflexivity|].
  destruct l; [exact Hx | exact IH].
Qed.

Section ArchiveMembers.

Variable now : datetime.
Variable rng : nat -> nat.
Variable env : tar_env.

Lemma add_file_flat (r : run) (root : string) (files : list string)
    (acc : list string * list string) :
  let acc' := fold_left (add_file env r root) files acc in
  (Forall (flat_member root) (fst acc) -> Forall (flat_member root) (fst acc'))
  /\ length (fst acc') + length (snd acc')
     = length (fst acc) + length (snd acc) + length files.
Proof.
  revert acc. induction files as [|f files IH]; intros acc; simpl.
  - split; [auto | lia].
  - destruct (IH (add_file env r root acc f)) as [IH1 IH2].
    split.
    + intros Hacc. apply IH1. unfold add_file.
      destruct (tar_add_ok env _); simpl; [|exact Hacc].
      apply Forall_app. split; [exact Hacc|]. repeat constructor.
      exists (Path.basename f). split; [apply basename_no_slash|].
      destruct (Path.has_substring ".md5" f); auto.
    + rewrite IH2. unfold add_file.
      destruct (tar_add_ok env _); simpl; rewrite ?length_app; simpl; lia.
Qed.

Lemma fold_left_files (r : run) (root : string) (clients : list SosNode)
    (acc : list string * list string) :
  fold_left (fun acc host => fold_left (add_file env r root)
                                       (file_list host) acc) clients acc
  = fold_left (add_file env r root) (flat_map file_list clients) acc.
Proof.
  revert acc. induction clients as [|c clients IH]; intros acc; simpl;
    [reflexivity|].
  now rewrite IH, fold_left_app.
Qed.

(** In the archive written, every retrieved file is either a member or a
    logged failure, the two log files are members, and every member lies
    directly under the root directory or under its [md5] or [logs]
    directory: there is no directory per node. *)
Theorem create_sos_archive_members (r : run) (a : archive) :
  create_sos_archive now rng env r = Ret a ->
  arc_root a = _get_archive_name now rng (run_opts r)
  /\ length (members a) + length (add_errors a)
     = length (flat_map file_list (client_list r)) + 2
  /\ Forall (flat_member (arc_root a)) (members a)
  /\ In (arc_root a +:+ "/logs/sos-collector.log") (members a)
  /\ In (arc_root a +:+ "/logs/ui.log") (members a).
Proof.
  unfold create_sos_archive, _get_archive_path.
  set (root := _get_archive_name now rng (run_opts r)).
  destruct (tar_open_ok env _); simpl; [|discriminate].
  rewrite fold_left_files.
  pose proof (add_file_flat r root (flat_map file_list (client_list r))
                ([], [])) as [Hflat Hlen].
  destruct (fold_left _ _ ([], [])) as [added failed].
  destruct (tar_add_ok env (sos_log_file r)); simpl; [|discriminate].
  destruct (tar_add_ok env (sos_ui_log_file r)); simpl; [|discriminate].
  intros [= <-]. simpl in *.
  split; [reflexivity|]. split; [rewrite length_app; simpl; lia|].
  split; [|split; apply in_or_app; right; simpl; auto].
  apply Forall_app. split; [apply Hflat; constructor|].
  repeat constructor.
  - exists "sos-collector.log". split; [reflexivity | auto].
  - exists "ui.log". split; [reflexivity | auto].
Qed.

End ArchiveMembers.

Lemma create_sos_archive_members_witness :
  let root := "sos-collector-2020-03-07-abcde" in
  create_sos_archive (mkDate 2020 3 7) (fun n => n) sample_env sample_run
  = Ret (mkArchive ("/var/tmp/sos.k3x9a1" +:+ root +:+ ".tar.gz") root
           [root +:+ "/sosreport-node1.tar.xz";
            root +:+ "/md5/sosreport-node1.tar.xz.md5";
            root +:+ "/logs/sos-collector.log"; root +:+ "/logs/ui.log"]
           [root +:+ "/broken"])
  /\ (4 + 1 = 3 + 2)%nat.
Proof.
  intros root. split; [reflexivity|].
  exact (proj1 (proj2 (create_sos_archive_members (mkDate 2020 3 7)
           (fun n => n) sample_env sample_run _ eq_refl))).
Defined.

(** ** The host group store *)

Lemma dirname_lib (name : string) :
  Py.contains "/" name = false ->
  path_dirname (COLLECTOR_LIB_DIR +:+ "/" +:+ name) = COLLECTOR_LIB_DIR.
Proof.
  intros H. unfold path_dirname.
  change (COLLECTOR_LIB_DIR +:+ "/" +:+ name)
    with ("/var/lib/sos-collector/" +:+ name).
  rewrite (split_app_absent "/" "/var/lib/sos-collector/" name H).
  reflexivity.
Qed.

Lemma join_lib (name : string) :
  String.prefix "/" name = false ->
  Path.join COLLECTOR_LIB_DIR name = COLLECTOR_LIB_DIR +:+ "/" +:+ name.
Proof. intros H. unfold Path.join. now rewrite H. Qed.

Lemma prefix_slash_contains (name : string) :
  Py.contains "/" name = false -> String.prefix "/" name = false.
Proof.
  destruct name as [|c name]; [reflexivity|]. intros H.
  change (Py.contains "/" (String c name))
    with (Ascii.eqb "/" c || Py.contains "/" name) in H.
  change (String.prefix "/" (String c name))
    with (if ascii_dec "/" c then String.prefix "" name else false).
  destruct (ascii_dec "/" c) as [<-|_]; [|reflexivity].
  now rewrite Ascii.eqb_refl in H.
Qed.

Lemma lib_path_neq (name : string) :
  COLLECTOR_LIB_DIR +:+ "/" +:+ name <> name.
Proof.
  intros H. apply (f_equal String.length) in H.
  rewrite !length_app_s in H. simpl in H. lia.
Qed.

(** How [write_host_group] ends. Whatever happens, no directory changes
    and no file other than the group's own. When it returns, the file
    named after the group in the collector's directory holds the document
    with the group's name and node list and has the mode [0o644]. When it
    fails, the file system is as it was, or the file was opened and is left
    without a document (a group saved earlier under that name is lost), or
    the file holds the new document and only its mode could not be
    changed. *)
Theorem write_host_group_effect (os : os_env) (fs : filesystem)
    (self : Self) (save_group : string) (node_list : list string) :
  let fname := COLLECTOR_LIB_DIR +:+ "/" +:+ save_group in
  let '(fs', result) := write_host_group os fs self save_group node_list in
  fs_dirs fs' = fs_dirs fs
  /\ (forall p, p <> fname ->
        fs_files fs' !! p = fs_files fs !! p
        /\ fs_modes fs' !! p = fs_modes fs !! p)
  /\ match result with
     | Ret f =>
         f = fname
         /\ path_isdir fs COLLECTOR_LIB_DIR = true
         /\ (exists doc, fs_files fs' !! fname = Some (Some doc)
                         /\ doc !! "nodes" = Some (JList node_list)
                         /\ doc !! "name" = Some (JStr save_group))
         /\ fs_modes fs' !! fname = Some 420%Z
     | _ =>
         fs' = fs
         \/ fs_files fs' !! fname = Some None
         \/ (exists doc, fs_files fs' !! fname = Some (Some doc)
                         /\ doc !! "nodes" = Some (JList node_list)
                         /\ doc !! "name" = Some (JStr save_group))
     end.
Proof.
  intros fname. unfold write_host_group. fold fname.
  destruct (self_cluster_type self) as [ct|]; [|auto].
  destruct (path_isdir fs COLLECTOR_LIB_DIR) eqn:Hd; cbn [negb]; [|auto].
  unfold open_w. destruct (_ || _); [auto|].
  unfold json_dump. destruct (write_ok os fname).
  - unfold chmod.
    destruct (negb (path_exists _ fname)) eqn:Hex;
      [|destruct (negb (chmod_ok os fname))]; cbn [fs_dirs fs_files fs_modes].
    + split; [reflexivity|]. split.
      * intros p Hp. rewrite !lookup_insert_ne by congruence.
        split; [reflexivity|].
        destruct (fs_files fs !! fname); [reflexivity|].
        now rewrite lookup_insert_ne by congruence.
      * right; right. eexists. split; [apply lookup_insert_eq|].
        split; reflexivity.
    + split; [reflexivity|]. split.
      * intros p Hp. rewrite !lookup_insert_ne by congruence.
        split; [reflexivity|].
        destruct (fs_files fs !! fname); [reflexivity|].
        now rewrite lookup_insert_ne by congruence.
      * right; right. eexists. split; [apply lookup_insert_eq|].
        split; reflexivity.
    + split; [reflexivity|]. split.
      * intros p Hp. rewrite !lookup_insert_ne by congruence.
        split; [reflexivity|].
        destruct (fs_files fs !! fname); [reflexivity|].
        now rewrite lookup_insert_ne by congruence.
      * split; [reflexivity|]. split; [reflexivity|]. split.
        -- eexists. split; [apply lookup_insert_eq|]. split; reflexivity.
        -- apply lookup_insert_eq.
  - cbn [fs_dirs fs_files fs_modes]. split; [reflexivity|]. split.
    + intros p Hp. rewrite !lookup_insert_ne by congruence.
      split; [reflexivity|].
      destruct (fs_files fs !! fname); [reflexivity|].
      now rewrite lookup_insert_ne by congruence.
    + right; left. apply lookup_insert_eq.
Qed.

(** A save that fails after the file was opened loses the group saved
    earlier under the same name: the file is left without a document. *)
Example write_host_group_loses_group :
  let fname := "/var/lib/sos-collector/lab" in
  let '(fs', result) :=
    write_host_group sample_os_full sample_fs_lab (sample_self []) "lab"
      ["node3"] in
  result = Raise (OtherError "OSError")
  /\ is_Some (fs_files sample_fs_lab !! fname ≫= id)
  /\ fs_files fs' !! fname = Some None.
Proof. vm_compute. repeat split. eauto. Qed.

(** A group saved under a plain name that nothing in the working
    directory bears is read back as written: the primary and the cluster
    type are taken over when they are not empty, and the saved nodes are
    appended to the nodes already given. *)
Theorem host_group_round_trip (os : os_env) (fs fs' : filesystem)
    (self : Self) (name fname : string) (node_list : list string)
    (opts : load_opts) :
  Py.contains "/" name = false ->
  path_exists fs name = false ->
  lo_group opts = name ->
  write_host_group os fs self name node_list = (fs', Ret fname) ->
  exists cluster_type,
    self_cluster_type self = Some cluster_type
    /\ _load_group_config fs' opts
       = (mkLoadOpts name
            (if Py.truthy (opts_master (self_opts self))
             then JStr (opts_master (self_opts self)) else lo_master opts)
            (if Py.truthy cluster_type
             then JStr cluster_type else lo_cluster_type opts)
            (lo_nodes opts ++ node_list),
          Ret tt).
Proof.
  intros Hname Hfree Hgroup. destruct opts as [g m0 c0 n0].
  simpl in Hgroup. subst g. unfold write_host_group.
  destruct (self_cluster_type self) as [ct|]; [|discriminate].
  destruct (path_isdir fs COLLECTOR_LIB_DIR); cbn [negb]; [|discriminate].
  unfold open_w. destruct (_ || _); [discriminate|].
  unfold json_dump. destruct (write_ok os _); [|discriminate].
  unfold chmod. destruct (negb (path_exists _ _)); [discriminate|].
  destruct (negb (chmod_ok os _)); [discriminate|].
  cbn [fs_dirs fs_files fs_modes]. intros [= <- <-].
  exists ct. split; [reflexivity|].
  unfold _load_group_config. cbn [lo_group lo_master lo_cluster_type lo_nodes].
  set (fs' := mkFs _ _ _).
  assert (Hex1 : path_exists fs' name = false).
  { unfold path_exists in *. subst fs'. cbn [fs_dirs fs_files].
    rewrite !lookup_insert_ne by apply lib_path_neq. exact Hfree. }
  rewrite Hex1, (join_lib name (prefix_slash_contains name Hname)).
  unfold path_exists at 1. subst fs'. cbn [fs_files fs_dirs].
  rewrite lookup_insert_eq.
  rewrite (bool_decide_eq_true_2 (is_Some (Some _))) by eauto.
  rewrite orb_true_r. cbn [mbind outcome_bind].
  rewrite lookup_insert_eq.
  unfold dict_get.
  rewrite lookup_insert_ne by discriminate.
  rewrite lookup_insert_eq.
  rewrite lookup_insert_ne by discriminate.
  rewrite lookup_insert_ne by discriminate.
  rewrite lookup_insert_eq.
  rewrite lookup_insert_ne by discriminate.
  rewrite lookup_insert_ne by discriminate.
  rewrite lookup_insert_ne by discriminate.
  rewrite lookup_insert_eq.
  cbn [json_truthy json_items].
  destruct (Py.truthy (opts_master (self_opts self))),
    (Py.truthy ct), node_list as [|n l]; cbn; rewrite ?app_nil_r;
    reflexivity.
Qed.

(** A group that is found neither as given nor in the collector's
    directory makes the call fail and leaves the options as they were. *)
Theorem load_group_config_missing (fs : filesystem) (opts : load_opts) :
  path_exists fs (lo_group opts) = false ->
  path_exists fs (Path.join COLLECTOR_LIB_DIR (lo_group opts)) = false ->
  _load_group_config fs opts
  = (opts, Raise (OtherError "OSError: Group not found")).
Proof.
  intros H1 H2. unfold _load_group_config. now rewrite H1, H2.
Qed.

(** Loading a group never takes nodes away: the nodes given before are
    still there, in front of those of the group, also when the call fails
    half way. *)
Theorem load_group_config_appends (fs : filesystem) (opts : load_opts) :
  let opts' := fst (_load_group_config fs opts) in
  lo_group opts' = lo_group opts
  /\ exists more, lo_nodes opts' = lo_nodes opts ++ more.
Proof.
  unfold _load_group_config.
  assert (Hsame : lo_group opts = lo_group opts
                  /\ exists more, lo_nodes opts = lo_nodes opts ++ more).
  { split; [reflexivity|]. exists []. now rewrite app_nil_r. }
  destruct (_ ≫= _) as [doc| |]; [|exact Hsame|exact Hsame].
  destruct (dict_get doc "master") as [v1| |]; [|exact Hsame|exact Hsame].
  destruct (dict_get doc "cluster_type") as [v2| |];
    [|destruct (json_truthy v1); exact Hsame
     |destruct (json_truthy v1); exact Hsame].
  destruct (dict_get doc "nodes") as [v3| |];
    [|destruct (json_truthy v1), (json_truthy v2); exact Hsame
     |destruct (json_truthy v1), (json_truthy v2); exact Hsame].
  destruct (json_truthy v3);
    [|destruct (json_truthy v1), (json_truthy v2); exact Hsame].
  destruct (json_items v3) as [items| |];
    destruct (json_truthy v1), (json_truthy v2); simpl;
    try exact Hsame; split; try reflexivity; eauto.
Qed.

Lemma host_group_round_trip_witness :
  let self := sample_self [] in
  let written :=
    write_host_group sample_os sample_fs self "lab" ["node1"; "node2"] in
  let opts := mkLoadOpts "lab" (JStr "") JNull ["node0"] in
  Py.contains "/" "lab" = false
  /\ path_exists sample_fs "lab" = false
  /\ written = (fst written, Ret "/var/lib/sos-collector/lab")
  /\ _load_group_config (fst written) opts
     = (mkLoadOpts "lab" (JStr "10.0.0.5") (JStr "kubernetes")
          ["node0"; "node1"; "node2"], Ret tt).
Proof.
  intros self written opts.
  assert (Hw : written = (fst written, Ret "/var/lib/sos-collector/lab"))
    by (vm_compute; reflexivity).
  split; [reflexivity|]. split; [vm_compute; reflexivity|].
  split; [exact Hw|].
  destruct (host_group_round_trip sample_os sample_fs (fst written) self
              "lab" "/var/lib/sos-collector/lab" ["node1"; "node2"] opts
              eq_refl eq_refl eq_refl Hw) as (ct & Hct & Hload).
  injection Hct as <-. exact Hload.
Defined.

Lemma load_group_config_missing_witness :
  let opts := mkLoadOpts "lab" (JStr "") JNull ["node0"] in
  path_exists sample_fs "lab" = false
  /\ path_exists sample_fs (Path.join COLLECTOR_LIB_DIR "lab") = false
  /\ _load_group_config sample_fs opts
     = (opts, Raise (OtherError "OSError: Group not found")).
Proof.
  intros opts.
  assert (H1 : path_exists sample_fs "lab" = false)
    by (vm_compute; reflexivity).
  assert (H2 : path_exists sample_fs (Path.join COLLECTOR_LIB_DIR "lab")
               = false) by (vm_compute; reflexivity).
  split; [exact H1|]. split; [exact H2|].
  exact (load_group_config_missing sample_fs opts H1 H2).
Defined.

(** ** The passwords asked for in [prep] *)

Section CredentialFacts.

Variable getpass : prompt -> string.

(** Which passwords are asked for, and in which order: the ssh password
    when [--password] or [--password-per-node] is given; the sudo password
    for a user other than root without [--insecure-sudo], unless a
    non-empty ssh password was typed; the root password when a user other
    than root asks to become root. *)
Theorem prep_credentials_prompts (o : cred_opts) :
  let ask_ssh := py_truthy (opts_password o) || opts_password_per_node o in
  let non_root := negb (String.eqb (opts_ssh_user o) "root") in
  prompts (prep_credentials getpass o)
  = (if ask_ssh then [AskSsh] else [])
    ++ (if non_root && negb (opts_insecure_sudo o)
           && negb (ask_ssh && Py.truthy (getpass AskSsh))
        then [AskSudo] else [])
    ++ (if opts_become_root o && non_root then [AskRoot] else []).
Proof.
  unfold prep_credentials.
  destruct o as [pw per user insecure become spw rpw]. simpl.
  destruct (String.eqb user "root") eqn:Hu, insecure, become;
    destruct (py_truthy pw || per) eqn:Hask; cbn; rewrite ?Hu; cbn;
    try (apply orb_false_iff in Hask as [-> _]; cbn; rewrite ?Hu; cbn);
    try (destruct (Py.truthy (getpass AskSsh)); cbn; rewrite ?Hu; cbn);
    reflexivity.
Qed.

(** For a user other than root without [--insecure-sudo] a sudo password
    is always at hand afterwards: the ssh password when one was typed and
    is not empty, and the answer to the sudo prompt otherwise. *)
Theorem prep_credentials_sudo_pw (o : cred_opts) :
  opts_ssh_user o <> "root" ->
  opts_insecure_sudo o = false ->
  opts_sudo_pw (cred (prep_credentials getpass o))
  = Some (VStr (if (py_truthy (opts_password o) || opts_password_per_node o)
                   && Py.truthy (getpass AskSsh)
                then getpass AskSsh else getpass AskSudo)).
Proof.
  intros Huser Hins. apply String.eqb_neq in Huser.
  unfold prep_credentials.
  destruct o as [pw per user insecure become spw rpw]. simpl in *.
  subst insecure. rewrite Huser. simpl.
  destruct become; destruct (py_truthy pw || per) eqn:Hask; cbn;
    rewrite ?Huser; cbn;
    try (apply orb_false_iff in Hask as [-> _]; cbn; rewrite ?Huser; cbn);
    try (destruct (Py.truthy (getpass AskSsh)); cbn; rewrite ?Huser; cbn);
    reflexivity.
Qed.

(** A request to become root is dropped when the ssh user is root; for
    any other user the root password is asked for and sudo is no longer
    needed. *)
Theorem prep_credentials_become_root (o : cred_opts) :
  opts_become_root o = true ->
  let st := prep_credentials getpass o in
  if String.eqb (opts_ssh_user o) "root"
  then opts_become_root (cred st) = false
       /\ opts_root_password (cred st) = opts_root_password o
       /\ need_sudo st = false
  else opts_become_root (cred st) = true
       /\ opts_root_password (cred st) = Some (getpass AskRoot)
       /\ need_sudo st = false.
Proof.
  intros Hb. unfold prep_credentials.
  destruct o as [pw per user insecure become spw rpw]. simpl in *.
  subst become.
  destruct (String.eqb user "root") eqn:Hu, insecure;
    destruct (py_truthy pw || per) eqn:Hask; cbn; rewrite ?Hu; cbn;
    try (apply orb_false_iff in Hask as [-> _]; cbn; rewrite ?Hu; cbn);
    try (destruct (Py.truthy (getpass AskSsh)); cbn; rewrite ?Hu; cbn);
    auto.
Qed.

End CredentialFacts.

Lemma prep_credentials_sudo_pw_witness :
  let o := mkCredOpts (VBool false) false "ops" false true None None in
  let getpass p := match p with
                   | AskSsh => "s3cret" | AskSudo => "sud0" | AskRoot => "r00t"
                   end in
  opts_ssh_user o <> "root"
  /\ opts_insecure_sudo o = false
  /\ opts_sudo_pw (cred (prep_credentials getpass o)) = Some (VStr "sud0")
  /\ prompts (prep_credentials getpass o) = [AskSudo; AskRoot].
Proof.
  intros o getpass.
  assert (Hu : opts_ssh_user o <> "root") by discriminate.
  split; [exact Hu|]. split; [reflexivity|].
  split; [|reflexivity].
  exact (prep_credentials_sudo_pw getpass o Hu eq_refl).
Defined.

Lemma prep_credentials_become_root_witness :
  let o := mkCredOpts (VBool false) false "root" false true None None in
  opts_become_root o = true
  /\ opts_become_root (cred (prep_credentials (fun _ => "pw") o)) = false.
Proof.
  intros o. split; [reflexivity|].
  exact (proj1 (prep_credentials_become_root (fun _ => "pw") o eq_refl)).
Defined.

(** ** The choice of the profile in [prep] *)

(** The run is given up for want of a profile, with exit code 1, exactly
    when no cluster type is named, no loaded profile matches the primary
    node, and no nodes are given. *)
Theorem prep_cluster_exits_iff (clusters : registry) (m : SosNode)
    (opts_cluster_type : option string) (opts_nodes : list string) :
  ((exists msg,
      prep_cluster clusters m opts_cluster_type opts_nodes = Exit 1 msg)
   <-> (is_set opts_cluster_type = false
        /\ Forall (fun c => check_enabled c m = false) (values clusters)
        /\ opts_nodes = []))
  /\ forall code msg,
       prep_cluster clusters m opts_cluster_type opts_nodes = Exit code msg ->
       code = 1%Z.
Proof.
  unfold prep_cluster, is_set.
  rewrite <- (determine_cluster_none_lemma_m m clusters).
  destruct opts_cluster_type as [t|]; [destruct (Py.truthy t) eqn:Ht|].
  - assert (Hno : forall code msg,
              (c ← (if String.eqb t "none" then registry_get clusters "jbon"
                    else registry_get clusters t);
               Ret (Some (set_master m c))) ≫=
              (fun cluster => match cluster, opts_nodes with
                 | None, [] =>
                     _exit ("Cluster type could not be determined and no "
                            +:+ "nodes provided" +:+ String "010" ""
                            +:+ "Aborting...") 1
                 | _, _ => Ret cluster
                 end) = Exit code msg -> False).
    { intros code msg H. unfold registry_get in H.
      destruct (String.eqb t "none");
        destruct (find _ clusters); simpl in H;
        destruct opts_nodes; discriminate. }
    split; [split|].
    + intros (msg & H). exfalso. exact (Hno _ _ H).
    + intros [? _]; discriminate.
    + intros code msg H. exfalso. exact (Hno _ _ H).
  - destruct (determine_cluster clusters m) as [c|], opts_nodes as [|n l];
      simpl; (split; [split; [intros (msg & H) | intros (H0 & H1 & H2)]
                     | intros code msg H]);
      try discriminate; auto.
    + unfold _exit. eauto.
    + now injection H.
  - destruct (determine_cluster clusters m) as [c|], opts_nodes as [|n l];
      simpl; (split; [split; [intros (msg & H) | intros (H0 & H1 & H2)]
                     | intros code msg H]);
      try discriminate; auto.
    + unfold _exit. eauto.
    + now injection H.
Qed.

(** A cluster type named on the command line is looked up in the
    registry, [none] standing for [jbon], and taken without its check
    being run; a name the registry does not have fails with a [KeyError]
    that nothing catches. *)
Theorem prep_cluster_named (clusters : registry) (m : SosNode)
    (t : string) (opts_nodes : list string) :
  Py.truthy t = true ->
  prep_cluster clusters m (Some t) opts_nodes
  = match find (fun kv => String.eqb (if String.eqb t "none" then "jbon"
                                      else t) (fst kv)) clusters with
    | Some kv => Ret (Some (set_master m (snd kv)))
    | None => Raise KeyError
    end.
Proof.
  intros Ht. unfold prep_cluster, registry_get. rewrite Ht.
  destruct (String.eqb t "none"); simpl;
    destruct (find _ clusters); reflexivity.
Qed.

Lemma prep_cluster_named_witness :
  let clusters := [("pacemaker", profile "pacemaker" [] false);
                   ("ovirt", profile "ovirt" [] true)] in
  Py.truthy "pacemaker" = true
  /\ prep_cluster clusters primary0 (Some "pacemaker") []
     = Ret (Some (set_master primary0 (profile "pacemaker" [] false)))
  /\ prep_cluster clusters primary0 (Some "none") [] = Raise KeyError.
Proof.
  intros clusters. split; [reflexivity|]. split.
  - rewrite (prep_cluster_named clusters primary0 "pacemaker" [] eq_refl).
    reflexivity.
  - reflexivity.
Defined.

(** ** [_import_modules] *)

(** For a module that does not hold both base classes, the loop removes
    the base class and keeps every other class, in order. *)
Theorem import_modules_filter (members : list string) :
  NoDup members ->
  ~ (In "SosHost" members /\ In "Cluster" members) ->
  _import_modules members
  = List.filter (fun name => negb (Py.mem name ["SosHost"; "Cluster"]))
                members.
Proof.
  intros Hnd Hboth. unfold _import_modules.
  rewrite (for_remove_skip_remove _ members Hnd).
  apply skip_remove_filter, no_adjacent_unique; [exact Hnd|].
  intros a b Ha Hb Hpa Hpb.
  apply mem_In in Hpa, Hpb. simpl in Hpa, Hpb.
  destruct Hpa as [<-|[<-|[]]], Hpb as [<-|[<-|[]]]; tauto.
Qed.

Lemma import_modules_filter_witness :
  NoDup ["Cluster"; "kubernetes"; "ocp"]
  /\ ~ (In "SosHost" ["Cluster"; "kubernetes"; "ocp"]
        /\ In "Cluster" ["Cluster"; "kubernetes"; "ocp"])
  /\ _import_modules ["Cluster"; "kubernetes"; "ocp"] = ["kubernetes"; "ocp"].
Proof.
  assert (Hnd : NoDup ["Cluster"; "kubernetes"; "ocp"])
    by (apply (bool_decide_unpack _); vm_compute; exact I).
  assert (Hb : ~ (In "SosHost" ["Cluster"; "kubernetes"; "ocp"]
                  /\ In "Cluster" ["Cluster"; "kubernetes"; "ocp"])).
  { intros [H _]. simpl in H. destruct H as [H|[H|[H|[]]]]; discriminate. }
  split; [exact Hnd|]. split; [exact Hb|].
  rewrite (import_modules_filter _ Hnd Hb). reflexivity.
Defined.

(** ** An option given with an empty value *)

Lemma blank_absent (c : ascii) (ws : string) :
  Py.isspace c = false -> all_chars Py.isspace ws = true ->
  Py.contains c ws = false.
Proof.
  intros Hc. induction ws as [|x ws IH]; [reflexivity|]. simpl.
  intros H. apply andb_true_iff in H as [Hx Hws].
  rewrite (IH Hws), orb_false_r. apply Ascii.eqb_neq. congruence.
Qed.

Lemma split_ws_blank (ws : string) :
  all_chars Py.isspace ws = true -> Py.split_ws ws = [].
Proof.
  unfold Py.split_ws. induction ws as [|x ws IH]; [reflexivity|]. simpl.
  intros H. apply andb_true_iff in H as [-> Hws]. now apply IH.
Qed.

(** An argument [profile.name=] whose value is missing or blank is read
    as [profile.name], and so is [profile.name=True]: the loop body of
    [parse_cluster_options] computes the same profile and name for them,
    and the value ['True']. *)
Theorem cluster_option_locals_blank_value (option ws : string) :
  Py.contains "." option = true ->
  Py.contains "=" option = false ->
  all_chars Py.isspace ws = true ->
  cluster_option_locals (option +:+ "=" +:+ ws) = cluster_option_locals option
  /\ cluster_option_locals (option +:+ "=True") = cluster_option_locals option
  /\ exists c n, cluster_option_locals option = Ret (c, n, "True").
Proof.
  intros Hdot Heq Hws.
  destruct (cluster_option_locals_default option Hdot Heq)
    as (c0 & n0 & Hplain0 & Htrue0).
  split; [|split; [congruence | eauto]]. clear c0 n0 Hplain0 Htrue0.
  destruct (split_present "." option Hdot) as (a & b & rest & Hsp).
  pose proof (split_pieces_absent "=" "." option Heq) as Hpieces.
  rewrite Hsp in Hpieces.
  assert (Hb : Py.contains "=" b = false).
  { inversion Hpieces as [|? ? _ Hp2]; inversion Hp2; assumption. }
  assert (Hplain : cluster_option_locals option = Ret (a, b, "True")).
  { unfold cluster_option_locals. rewrite Hsp. simpl.
    rewrite (split_absent "=" option Heq), (split_absent "=" b Hb).
    reflexivity. }
  rewrite Hplain.
  assert (Hnodot : Py.contains "." ("=" +:+ ws) = false).
  { change ("=" +:+ ws) with (String "=" ws). simpl.
    now apply blank_absent. }
  assert (Hnoeq : Py.contains "=" ws = false) by now apply blank_absent.
  unfold cluster_option_locals.
  rewrite (split_app_absent "." option ("=" +:+ ws) Hnodot), Hsp.
  change (option +:+ "=" +:+ ws) with (option +:+ String "=" ws).
  rewrite (split_app_sep "=" option ws Heq), (split_absent "=" ws Hnoeq).
  assert (Hval : (rhs ← index [option; ws] 1%nat; index (Py.split_ws rhs) 0%nat)
                 = (Raise IndexError : outcome string)).
  { simpl. now rewrite (split_ws_blank ws Hws). }
  rewrite Hval.
  destruct rest as [|r rest].
  - change (extend_last ("=" +:+ ws) [a; b]) with [a; b +:+ String "=" ws].
    simpl. rewrite (split_app_sep "=" b ws Hb). reflexivity.
  - rewrite (extend_last_cons ("=" +:+ ws) a (b :: r :: rest))
      by discriminate.
    rewrite (extend_last_cons ("=" +:+ ws) b (r :: rest)) by discriminate.
    simpl. rewrite (split_absent "=" b Hb). reflexivity.
Qed.

Lemma cluster_option_locals_blank_value_witness :
  Py.contains "." "ovirt.no-database" = true
  /\ Py.contains "=" "ovirt.no-database" = false
  /\ all_chars Py.isspace "  " = true
  /\ cluster_option_locals ("ovirt.no-database" +:+ "=" +:+ "  ")
     = cluster_option_locals "ovirt.no-database".
Proof.
  split; [reflexivity|]. split; [reflexivity|]. split; [reflexivity|].
  exact (proj1 (cluster_option_locals_blank_value "ovirt.no-database" "  "
                  eq_refl eq_refl eq_refl)).
Defined.

(** ** [load_clusters] *)

Lemma dict_set_keys (d : registry) (k : string) (v : Cluster) (k' : string) :
  In k' (map fst (dict_set d k v)) <-> k' = k \/ In k' (map fst d).
Proof.
  induction d as [|[k0 v0] d IH]; simpl; [intuition congruence|].
  destruct (String.eqb_spec k k0) as [->|Hne]; simpl;
    [intuition congruence|].
  rewrite IH. intuition congruence.
Qed.

Lemma dict_set_NoDup (d : registry) (k : string) (v : Cluster) :
  NoDup (map fst d) -> NoDup (map fst (dict_set d k v)).
Proof.
  induction d as [|[k0 v0] d IH]; simpl; intros H.
  - repeat constructor. rewrite list_elem_of_In. tauto.
  - apply NoDup_cons in H as [Hk0 Hd].
    destruct (String.eqb_spec k k0) as [->|Hne]; simpl.
    + now constructor.
    + constructor; [|now apply IH].
      rewrite list_elem_of_In in *. rewrite dict_set_keys.
      intros [->|H]; [congruence | tauto].
Qed.

Lemma registry_get_set_eq (d : registry) (k : string) (v : Cluster) :
  registry_get (dict_set d k v) k = Ret v.
Proof.
  unfold registry_get. induction d as [|[k0 v0] d IH]; simpl.
  - now rewrite String.eqb_refl.
  - destruct (String.eqb k k0) eqn:E; simpl.
    + now rewrite String.eqb_refl.
    + rewrite E. exact IH.
Qed.

Lemma registry_get_set_ne (d : registry) (k k' : string) (v : Cluster) :
  k' <> k -> registry_get (dict_set d k v) k' = registry_get d k'.
Proof.
  intros Hne. apply String.eqb_neq in Hne.
  unfold registry_get. induction d as [|[k0 v0] d IH]; simpl.
  - now rewrite Hne.
  - destruct (String.eqb_spec k k0) as [->|Hk]; simpl.
    + now rewrite Hne.
    + destruct (String.eqb k' k0); [reflexivity | exact IH].
Qed.

Lemma load_clusters_snoc (clusters : list (string * Cluster))
    (k : string) (v : Cluster) :
  load_clusters (clusters ++ [(k, v)]) = dict_set (load_clusters clusters) k v.
Proof. unfold load_clusters. now rewrite fold_left_app. Qed.

(** The registry holds every class name once, however often the class was
    found; a name is in it exactly when some module held it, and it stands
    for the instance made last. *)
Theorem load_clusters_registry (clusters : list (string * Cluster)) :
  NoDup (map fst (load_clusters clusters))
  /\ (forall k, In k (map fst (load_clusters clusters))
                <-> In k (map fst clusters))
  /\ (forall pre k v post,
        clusters = pre ++ (k, v) :: post -> ~ In k (map fst post) ->
        registry_get (load_clusters clusters) k = Ret v).
Proof.
  split; [|split].
  - induction clusters as [|[k v] l IH] using rev_ind; [constructor|].
    rewrite load_clusters_snoc. now apply dict_set_NoDup.
  - induction clusters as [|[k v] l IH] using rev_ind; intros k';
      [reflexivity|].
    rewrite load_clusters_snoc, dict_set_keys, map_app, in_app_iff, IH.
    simpl. intuition congruence.
  - intros pre k v post -> Hlast.
    induction post as [|[k2 v2] post IH] using rev_ind.
    + rewrite load_clusters_snoc. apply registry_get_set_eq.
    + rewrite map_app, in_app_iff in Hlast. simpl in Hlast.
      replace (pre ++ (k, v) :: post ++ [(k2, v2)])
        with ((pre ++ (k, v) :: post) ++ [(k2, v2)])
        by (now rewrite <- app_assoc).
      rewrite load_clusters_snoc.
      rewrite registry_get_set_ne by (intros ->; apply Hlast; right; now left).
      apply IH. intros H. apply Hlast. now left.
Qed.

(** A class found in two modules: one entry, at the place of the first
    find, with the instance made last. *)
Example load_clusters_sample :
  load_clusters [("ovirt", profile "ovirt" [] false);
                 ("kubernetes", profile "kubernetes" [] true);
                 ("ovirt", profile "ovirt" [] true)]
  = [("ovirt", profile "ovirt" [] true);
     ("kubernetes", profile "kubernetes" [] true)].
Proof. reflexivity. Qed.
